(** * csvParser: a shallow embedding of [src/services/csvParser.ts]

    The TypeScript module turns a vendor CSV export of a laundry terminal into
    a list of transactions and a little metadata.  This file embeds the module
    function by function and proves the properties its specification states.

    Conventions of the embedding.

    - A JavaScript string is a sequence of UTF-16 code units.  We model the
      strings whose code units are all below 256 (the Latin-1 range) as
      [string]: one [ascii] is one code unit.  [isWhiteSpace] and
      [toLowerCase] are the ECMAScript definitions restricted to that range.
    - A JavaScript number resulting from [parseFloat] is recorded as
      [Num q], where [q] is the mathematical value of the parsed numeral,
      exact.  The engine returns the Number value for [q]: the double
      nearest to it, an infinity when [q] is beyond the range of doubles.
      That rounding is not computed here.  It is monotone and maps 0 to 0,
      so what is proved of [q] on not being NaN, on being at least 0 and on
      two texts giving the same number holds of the double as well; where a
      statement names [q], the double is the Number value for it.  The sign
      of a zero is not represented.
    - Integers ([parseInt], array indices, time values) are modelled by [Z],
      exact while magnitudes stay below 2^53.
    - The Date constructor and the getters of a Date work in the local time
      of the host.  The time zone of the host is a parameter of the
      embedding, the [LocalTZA] of ECMA-262: nothing is assumed of it
      except where a statement says so.
    - [undefined] is [None]; calling a method on [undefined] throws a
      [TypeError], which the error monad [M] records. *)

From Stdlib Require Import ZArith QArith List String Ascii Bool Arith Lia.
From Stdlib Require Import Numbers.DecimalString Numbers.DecimalNat.
Import ListNotations.

Local Close Scope Q_scope.
Local Open Scope string_scope.
Local Open Scope list_scope.
Local Open Scope nat_scope.

(** ** The error monad *)

Inductive exn : Type := TypeError.

Inductive M (A : Type) : Type :=
| Ok (a : A)
| Throw (e : exn).
Arguments Ok {A} a.
Arguments Throw {A} e.

Definition bind {A B : Type} (m : M A) (k : A -> M B) : M B :=
  match m with
  | Ok a => k a
  | Throw e => Throw e
  end.

Notation "x <- m ;; k" := (bind m (fun x => k))
  (at level 61, m at next level, right associativity).

(** [o.method(...)]: the receiver must not be [undefined]. *)
Definition deref {A : Type} (o : option A) : M A :=
  match o with
  | Some a => Ok a
  | None => Throw TypeError
  end.

(** ** String primitives of the JavaScript runtime *)

Module JS.

Definition LF : ascii := "010"%char.
Definition CR : ascii := "013"%char.
Definition DQUOTE : ascii := "034"%char.
Definition SQUOTE : ascii := "039"%char.

(** WhiteSpace and LineTerminator code units below 256:
    TAB, LF, VT, FF, CR, SP and NBSP. *)
Definition isWhiteSpace (c : ascii) : bool :=
  let n := nat_of_ascii c in
  ((9 <=? n) && (n <=? 13)) || (n =? 32) || (n =? 160).

Definition isDigit (c : ascii) : bool :=
  let n := nat_of_ascii c in (48 <=? n) && (n <=? 57).

Definition digitValue (c : ascii) : Z := (Z.of_nat (nat_of_ascii c) - 48)%Z.

(** Truthiness of a string: only the empty string is falsy. *)
Definition truthy (s : string) : bool :=
  match s with
  | EmptyString => false
  | String _ _ => true
  end.

(** Truthiness of [string | undefined]. *)
Definition truthyOpt (o : option string) : bool :=
  match o with
  | Some s => truthy s
  | None => false
  end.

(** [a || b] on strings. *)
Definition orElse (a b : string) : string := if truthy a then a else b.

Fixpoint trimStart (s : string) : string :=
  match s with
  | EmptyString => EmptyString
  | String c r => if isWhiteSpace c then trimStart r else s
  end.

Fixpoint trimEnd (s : string) : string :=
  match s with
  | EmptyString => EmptyString
  | String c r =>
      match trimEnd r with
      | EmptyString => if isWhiteSpace c then EmptyString else String c EmptyString
      | r' => String c r'
      end
  end.

(** [s.trim()] *)
Definition trim (s : string) : string := trimEnd (trimStart s).

(** [s.startsWith(p)] *)
Fixpoint startsWith (s p : string) : bool :=
  match p, s with
  | EmptyString, _ => true
  | String _ _, EmptyString => false
  | String a p', String b s' => Ascii.eqb a b && startsWith s' p'
  end.

(** [s.includes(p)] *)
Fixpoint includes (s p : string) : bool :=
  startsWith s p ||
  match s with
  | EmptyString => false
  | String _ r => includes r p
  end.

(** The suffix of [s] after its first [n] code units. *)
Fixpoint drop (n : nat) (s : string) : string :=
  match n, s with
  | O, _ => s
  | S n', String _ r => drop n' r
  | S _, EmptyString => EmptyString
  end.

(** [s.replace(p, r)] with a string pattern: the first occurrence only. *)
Fixpoint replaceFirst (s p r : string) : string :=
  if startsWith s p then (r ++ drop (String.length p) s)%string
  else match s with
       | EmptyString => EmptyString
       | String c s' => String c (replaceFirst s' p r)
       end.

(** [s.replace(re, '')] for a global pattern [re] that is a character
    class: every code unit of the class is deleted. *)
Fixpoint deleteAll (cls : ascii -> bool) (s : string) : string :=
  match s with
  | EmptyString => EmptyString
  | String c r => if cls c then deleteAll cls r else String c (deleteAll cls r)
  end.

Definition isQuote (c : ascii) : bool := Ascii.eqb c SQUOTE || Ascii.eqb c DQUOTE.
Definition isDot (c : ascii) : bool := Ascii.eqb c "."%char.
Definition isComma (c : ascii) : bool := Ascii.eqb c ","%char.

(** [s.split(sep)] for a separator of one code unit. *)
Fixpoint split (sep : ascii) (s : string) : list string :=
  match s with
  | EmptyString => [EmptyString]
  | String c r =>
      if Ascii.eqb c sep then EmptyString :: split sep r
      else match split sep r with
           | h :: t => String c h :: t
           | [] => [String c EmptyString]
           end
  end.

(** [s.toLowerCase()] on code units below 256: A-Z, and the Latin-1 capitals
    0xC0-0xDE other than the multiplication sign 0xD7, move up by 32. *)
Definition lowerChar (c : ascii) : ascii :=
  let n := nat_of_ascii c in
  if ((65 <=? n) && (n <=? 90)) ||
     ((192 <=? n) && (n <=? 222) && negb (n =? 215))
  then ascii_of_nat (n + 32) else c.

Fixpoint toLowerCase (s : string) : string :=
  match s with
  | EmptyString => EmptyString
  | String c r => String (lowerChar c) (toLowerCase r)
  end.

(** The longest prefix of decimal digits, and what follows it. *)
Fixpoint spanDigits (s : string) : string * string :=
  match s with
  | EmptyString => (EmptyString, EmptyString)
  | String c r =>
      if isDigit c then let (d, rest) := spanDigits r in (String c d, rest)
      else (EmptyString, s)
  end.

Fixpoint digitsValue (acc : Z) (ds : string) : Z :=
  match ds with
  | EmptyString => acc
  | String c r => digitsValue (10 * acc + digitValue c)%Z r
  end.

(** An optional sign: [true] for a minus, and what follows it. *)
Definition spanSign (s : string) : bool * string :=
  match s with
  | String "-" r => (true, r)
  | String "+" r => (false, r)
  | _ => (false, s)
  end.

(** [parseInt(s, 10)]; [None] is NaN. *)
Definition parseInt (s : string) : option Z :=
  let (neg, r) := spanSign (trimStart s) in
  let (ds, _) := spanDigits r in
  match ds with
  | EmptyString => None
  | _ => Some (if neg then - digitsValue 0 ds else digitsValue 0 ds)%Z
  end.

(** [parseInt(x, 10)] where [x] may be [undefined]: ToString(undefined) is
    ["undefined"], which has no digits. *)
Definition parseIntOpt (o : option string) : option Z :=
  match o with
  | Some s => parseInt s
  | None => None
  end.

(** Numbers produced by [parseFloat].  [Num q] stands for the Number value
    for the mathematical value [q], that is the double ECMA-262 rounds [q]
    to; [q] is kept exact and the rounding is not computed, so two distinct
    [q] may stand for one double. *)
Inductive number : Type :=
| NaN
| Inf (negative : bool)
| Num (q : Q).

(** The value of the numeral with digits [m] scaled by [10^e]. *)
Definition scale10 (m e : Z) : Q :=
  if (0 <=? e)%Z then Qred (Qmake (m * 10 ^ e)%Z 1)
  else Qred (Qmake m (Z.to_pos (10 ^ (- e))%Z)).

(** The ExponentPart of a StrDecimalLiteral, if one is present. *)
Definition spanExponent (s : string) : Z :=
  match s with
  | String c r =>
      if Ascii.eqb c "e"%char || Ascii.eqb c "E"%char then
        let (neg, r') := spanSign r in
        let (ds, _) := spanDigits r' in
        match ds with
        | EmptyString => 0%Z
        | _ => if neg then (- digitsValue 0 ds)%Z else digitsValue 0 ds
        end
      else 0%Z
  | EmptyString => 0%Z
  end.

(** [parseFloat(s)]: the longest prefix of the trimmed string that is a
    StrDecimalLiteral, and the mathematical value of that prefix. *)
Definition parseFloat (s : string) : number :=
  let (neg, r) := spanSign (trimStart s) in
  if startsWith r "Infinity" then Inf neg
  else
    let (ip, r1) := spanDigits r in
    let (fp, r2) :=
      match r1 with
      | String "." r1' =>
          (* "." alone after no integer digits needs fraction digits *)
          spanDigits r1'
      | _ => (EmptyString, r1)
      end in
    match (ip ++ fp)%string with
    | EmptyString => NaN
    | ds =>
        let m := digitsValue 0 ds in
        let e := (spanExponent r2 - Z.of_nat (String.length fp))%Z in
        Num (scale10 (if neg then - m else m)%Z e)
    end.

Definition isNaN (n : number) : bool :=
  match n with
  | NaN => true
  | _ => false
  end.

End JS.

(** ** The Date object (ECMA-262, Date objects: time values and calendar)

    A time value is a number of milliseconds since the epoch, in UTC; [None]
    is NaN, the time value of an Invalid Date.  The constructor called on
    calendar fields and the getters work in the local time of the host: the
    standard converts with the host-defined [LocalTZA(t, isUTC)], the offset
    of local time from UTC in milliseconds, at the instant [t] when [isUTC]
    holds and at the local time [t] otherwise.  The host's zone is not part
    of the program, so it is a parameter of type [TimeZone] here.  Across a
    transition of the zone the two offsets differ, and a local time that the
    transition skips is read with the offset in force before it. *)

Module JSDate.

Local Open Scope Z_scope.

Definition msPerSecond : Z := 1000.
Definition msPerMinute : Z := 60000.
Definition msPerHour : Z := 3600000.
Definition msPerDay : Z := 86400000.

Definition TimeZone : Type := Z -> bool -> Z.

Definition UTC (LocalTZA : TimeZone) (t : Z) : Z := t - LocalTZA t false.
Definition LocalTime (LocalTZA : TimeZone) (t : Z) : Z := t + LocalTZA t true.

Definition Day (t : Z) : Z := t / msPerDay.
Definition TimeWithinDay (t : Z) : Z := t mod msPerDay.

Definition DaysInYear (y : Z) : Z :=
  if negb (y mod 4 =? 0) then 365
  else if negb (y mod 100 =? 0) then 366
  else if negb (y mod 400 =? 0) then 365
  else 366.

Definition DayFromYear (y : Z) : Z :=
  365 * (y - 1970) + (y - 1969) / 4 - (y - 1901) / 100 + (y - 1601) / 400.

Definition TimeFromYear (y : Z) : Z := msPerDay * DayFromYear y.

(** The largest [y] with [DayFromYear y <= d]: the Gregorian mean year gives
    an estimate that is off by at most one. *)
Definition YearFromDay (d : Z) : Z :=
  let y := 1970 + (400 * d) / 146097 in
  if d <? DayFromYear y then y - 1
  else if DayFromYear (y + 1) <=? d then y + 1
  else y.

Definition YearFromTime (t : Z) : Z := YearFromDay (Day t).

Definition InLeapYear (t : Z) : Z :=
  if DaysInYear (YearFromTime t) =? 366 then 1 else 0.

Definition DayWithinYear (t : Z) : Z := Day t - DayFromYear (YearFromTime t).

Definition MonthFromTime (t : Z) : Z :=
  let d := DayWithinYear t in
  let leap := InLeapYear t in
  if d <? 31 then 0
  else if d <? 59 + leap then 1
  else if d <? 90 + leap then 2
  else if d <? 120 + leap then 3
  else if d <? 151 + leap then 4
  else if d <? 181 + leap then 5
  else if d <? 212 + leap then 6
  else if d <? 243 + leap then 7
  else if d <? 273 + leap then 8
  else if d <? 304 + leap then 9
  else if d <? 334 + leap then 10
  else 11.

Definition DateFromTime (t : Z) : Z :=
  let d := DayWithinYear t in
  let leap := InLeapYear t in
  match MonthFromTime t with
  | 0 => d + 1
  | 1 => d - 30
  | 2 => d - 58 - leap
  | 3 => d - 89 - leap
  | 4 => d - 119 - leap
  | 5 => d - 150 - leap
  | 6 => d - 180 - leap
  | 7 => d - 211 - leap
  | 8 => d - 242 - leap
  | 9 => d - 272 - leap
  | 10 => d - 303 - leap
  | _ => d - 333 - leap
  end.

Definition WeekDay (t : Z) : Z := (Day t + 4) mod 7.

Definition HourFromTime (t : Z) : Z := (t / msPerHour) mod 24.
Definition MinFromTime (t : Z) : Z := (t / msPerMinute) mod 60.
Definition SecFromTime (t : Z) : Z := (t / msPerSecond) mod 60.

Definition MakeTime (hour min sec ms : Z) : Z :=
  hour * msPerHour + min * msPerMinute + sec * msPerSecond + ms.

(** The day number of the first day of month [mn] (0-based) of a year with
    [leap] extra days. *)
Definition DayOfMonthStart (mn leap : Z) : Z :=
  match mn with
  | 0 => 0
  | 1 => 31
  | 2 => 59 + leap
  | 3 => 90 + leap
  | 4 => 120 + leap
  | 5 => 151 + leap
  | 6 => 181 + leap
  | 7 => 212 + leap
  | 8 => 243 + leap
  | 9 => 273 + leap
  | 10 => 304 + leap
  | _ => 334 + leap
  end.

(** MakeDay: the day number of the time value whose year is [ym], month is
    [mn] and date is 1, moved by [date - 1] days. *)
Definition MakeDay (year month date : Z) : Z :=
  let ym := year + month / 12 in
  let mn := month mod 12 in
  let leap := if DaysInYear ym =? 366 then 1 else 0 in
  DayFromYear ym + DayOfMonthStart mn leap + date - 1.

Definition MakeDate (day time : Z) : Z := day * msPerDay + time.

Definition TimeClip (t : Z) : option Z :=
  if 8640000000000000 <? Z.abs t then None else Some t.

(** A Date object: its [[DateValue]]. *)
Definition Date : Type := option Z.

(** [new Date(year, month, date, hours, minutes, seconds)] on numbers. *)
Definition newDate (LocalTZA : TimeZone)
    (year month date hours minutes seconds : option Z) : Date :=
  match year, month, date, hours, minutes, seconds with
  | Some y, Some m, Some dt, Some h, Some mi, Some s =>
      let yr := if (0 <=? y) && (y <=? 99) then 1900 + y else y in
      let finalDate := MakeDate (MakeDay yr m dt) (MakeTime h mi s 0) in
      TimeClip (UTC LocalTZA finalDate)
  | _, _, _, _, _, _ => None
  end.

Definition getter (LocalTZA : TimeZone) (f : Z -> Z) (d : Date) : option Z :=
  match d with
  | Some t => Some (f (LocalTime LocalTZA t))
  | None => None
  end.

Definition getFullYear (LocalTZA : TimeZone) : Date -> option Z :=
  getter LocalTZA YearFromTime.
Definition getMonth (LocalTZA : TimeZone) : Date -> option Z :=
  getter LocalTZA MonthFromTime.
Definition getDate (LocalTZA : TimeZone) : Date -> option Z :=
  getter LocalTZA DateFromTime.
Definition getHours (LocalTZA : TimeZone) : Date -> option Z :=
  getter LocalTZA HourFromTime.
Definition getMinutes (LocalTZA : TimeZone) : Date -> option Z :=
  getter LocalTZA MinFromTime.
Definition getSeconds (LocalTZA : TimeZone) : Date -> option Z :=
  getter LocalTZA SecFromTime.
Definition getDay (LocalTZA : TimeZone) : Date -> option Z :=
  getter LocalTZA WeekDay.

(** Zones used in the examples.  [fixedOffset] never changes its offset;
    [brasilia] is UTC-3.  [saoPauloSpring2018] has the transition of
    4 November 2018 of America/Sao_Paulo: at local midnight the clocks went
    from UTC-3 to UTC-2, so the local times from 00:00 to 01:00 of that day
    do not exist. *)
Definition fixedOffset (offset : Z) : TimeZone := fun _ _ => offset.

Definition brasilia : TimeZone := fixedOffset (- 3 * msPerHour).

Definition saoPauloSpring2018 : TimeZone :=
  fun t isUTC =>
    let midnight := MakeDate (MakeDay 2018 10 4) 0 in
    let transition :=
      if isUTC then midnight + 3 * msPerHour else midnight + msPerHour in
    if t <? transition then - 3 * msPerHour else - 2 * msPerHour.

(** The offsets of a zone stay within a day. *)
Definition boundedOffsets (LocalTZA : TimeZone) : Prop :=
  forall (t : Z) (isUTC : bool), Z.abs (LocalTZA t isUTC) <= msPerDay.

(** The local time [t] is one the zone's clocks show: the instant it
    denotes reads back as [t]. *)
Definition notSkipped (LocalTZA : TimeZone) (t : Z) : Prop :=
  LocalTime LocalTZA (UTC LocalTZA t) = t.

End JSDate.

Import JS.
Import JSDate.

(** ** The module [src/services/csvParser.ts] *)

(** The enum [CycleType] of [../types]: the three cycle kinds the parser
    assigns. *)
Module CycleType.
Inductive t : Type := WASH | DRY | UNKNOWN.
End CycleType.

(** [parseCurrency]: the text handed to [parseFloat]. *)
Definition cleanCurrency (value : string) : string :=
  let clean := trim (replaceFirst (deleteAll isQuote value) "R$" "") in
  let clean :=
    if includes clean "." && includes clean ","
    then deleteAll isDot clean else clean in
  replaceFirst clean "," ".".

Definition parseCurrency (value : string) : number :=
  if negb (truthy value) then Num 0%Q
  else
    let num := parseFloat (cleanCurrency value) in
    if isNaN num then Num 0%Q else num.

Definition determineCycleType (productName : string) : CycleType.t :=
  if negb (truthy productName) then CycleType.UNKNOWN
  else
    let lower := toLowerCase productName in
    if includes lower "lava" then CycleType.WASH
    else if includes lower "seca" then CycleType.DRY
    else CycleType.UNKNOWN.

Module CsvFormat.
Inductive t : Type := SELF_SERVICE | ATTENDANT | UNKNOWN.
End CsvFormat.

Fixpoint countQuotes (s : string) : nat :=
  match s with
  | EmptyString => 0
  | String c r => if Ascii.eqb c DQUOTE then S (countQuotes r) else countQuotes r
  end.

(** [line.split(re)], where [re] is a comma followed by a lookahead: any
    number of groups of two (run of non-quotes, double quote), then a run of
    non-quotes, then the end of the line.  The lookahead succeeds at a comma
    exactly when what follows it, up to the end of the line, holds an even
    number of double quotes; the line is cut at those commas. *)
Fixpoint splitCsvLine (line : string) : list string :=
  match line with
  | EmptyString => [EmptyString]
  | String c r =>
      if Ascii.eqb c ","%char && Nat.even (countQuotes r)
      then EmptyString :: splitCsvLine r
      else match splitCsvLine r with
           | h :: t => String c h :: t
           | [] => [String c EmptyString]
           end
  end.

Definition isLineEmpty (line : string) : bool :=
  if negb (truthy line) || negb (truthy (trim line)) then true
  else
    let stripped := trim (deleteAll isComma line) in
    String.length stripped =? 0.

(** The loop of [detectFormat]: [n] iterations are left, the next one at
    index [i]. *)
Fixpoint detectFormat_loop (lines : list string) (n i : nat) : M CsvFormat.t :=
  match n with
  | O => Ok CsvFormat.UNKNOWN
  | S n' =>
      line <- deref (nth_error lines i) ;;
      if includes line "Produtos" && includes line "Total Venda"
         && includes line "Data"
      then Ok CsvFormat.SELF_SERVICE
      else if includes line "Nome Terminal" && includes line "Venda (R$)"
              && includes line "Data"
      then Ok CsvFormat.ATTENDANT
      else detectFormat_loop lines n' (S i)
  end.

Definition detectFormat (lines : list string) : M CsvFormat.t :=
  let limit := Nat.min (List.length lines) 5000 in
  detectFormat_loop lines limit 0.

(** The placeholder period; its two accented letters are the Latin-1 code
    units 237 (i acute) and 227 (a tilde). *)
Definition defaultPeriod : string :=
  ("Per" ++ String "237"%char "odo n" ++ String "227"%char "o identificado")%string.

Definition cleanPeriod (periodPart : string) : string :=
  trim (deleteAll isQuote
          (replaceFirst (replaceFirst periodPart "Vendas de " "") " ate " " - ")).

Fixpoint extractPeriod_loop (lines : list string) (n i : nat) : M string :=
  match n with
  | O => Ok defaultPeriod
  | S n' =>
      line <- deref (nth_error lines i) ;;
      if includes line "Vendas de" then
        let parts := split ","%char line in
        match find (fun p => includes p "Vendas de") parts with
        | Some periodPart =>
            if truthy periodPart then Ok (cleanPeriod periodPart)
            else extractPeriod_loop lines n' (S i)
        | None => extractPeriod_loop lines n' (S i)
        end
      else extractPeriod_loop lines n' (S i)
  end.

Definition extractPeriod (lines : list string) : M string :=
  let limit := Nat.min (List.length lines) 5000 in
  extractPeriod_loop lines limit 0.

(** [Transaction] and [DashboardMetadata] of [../types], with the fields the
    parser fills in.  [dayOfWeek] is the number [getDay] returns. *)
Record Transaction : Type := {
  id : string;
  date : Date;
  rawDate : string;
  rawTime : string;
  productName : string;
  type : CycleType.t;
  amount : number;
  paymentMethod : string;
  machine : string;
  dayOfWeek : option Z
}.

Record DashboardMetadata : Type := {
  unitName : string;
  period : string;
  reportType : string
}.

Record ParseResult : Type := {
  metadata : DashboardMetadata;
  transactions : list Transaction
}.

Definition defaultUnitName : string := "Unidade Desconhecida".

(** [csvText.split(/\r\n|\n/)] *)
Fixpoint splitLines (s : string) : list string :=
  match s with
  | EmptyString => [EmptyString]
  | String c r =>
      if Ascii.eqb c LF then EmptyString :: splitLines r
      else if Ascii.eqb c CR && startsWith r (String LF EmptyString)
      then splitLines r
      else match splitLines r with
           | h :: t => String c h :: t
           | [] => [String c EmptyString]
           end
  end.

(** The search for the header row: [-1], here [None], when no line has both
    words. *)
Fixpoint headerIndex_loop (lines : list string) (n i : nat) : M (option nat) :=
  match n with
  | O => Ok None
  | S n' =>
      line <- deref (nth_error lines i) ;;
      line' <- deref (nth_error lines i) ;;
      if includes line "Data" && includes line' "Hora" then Ok (Some i)
      else headerIndex_loop lines n' (S i)
  end.

(** [cols[k]?.replace(quotes, '').trim() || dflt], where [quotes] is the
    global pattern for a single or a double quote. *)
Definition field (cols : list string) (k : nat) (dflt : string) : string :=
  match nth_error cols k with
  | Some c => orElse (trim (deleteAll isQuote c)) dflt
  | None => dflt
  end.

(** [dateRaw.match(/^\d{2}\/\d{2}\/\d{4}$/)] as a truth value. *)
Definition matchesDate (s : string) : bool :=
  match s with
  | String d1 (String d2 (String s1 (String m1 (String m2 (String s2
      (String y1 (String y2 (String y3 (String y4 EmptyString))))))))) =>
      isDigit d1 && isDigit d2 && Ascii.eqb s1 "/"%char
      && isDigit m1 && isDigit m2 && Ascii.eqb s2 "/"%char
      && isDigit y1 && isDigit y2 && isDigit y3 && isDigit y4
  | _ => false
  end.

(** The state of the row loop: the two variables it assigns. *)
Record LoopState : Type := {
  st_unitName : string;
  st_transactions : list Transaction
}.

(** The scan for the "Operador:" line (first 50 lines); [unitName] is
    returned unchanged when no line supplies a name. *)
Fixpoint operador_loop (lines : list string) (n j : nat) (unitName : string)
  : M string :=
  match n with
  | O => Ok unitName
  | S n' =>
      line <- deref (nth_error lines j) ;;
      if startsWith line "Operador:" then
        let parts := splitCsvLine line in
        match nth_error parts 1 with
        | Some p =>
            if truthy p then Ok (trim (deleteAll isQuote p))
            else operador_loop lines n' (S j) unitName
        | None => operador_loop lines n' (S j) unitName
        end
      else operador_loop lines n' (S j) unitName
  end.

(** [x || '0'] for [x : string | undefined]. *)
Definition orZero (o : option string) : string :=
  match o with
  | Some s => orElse s "0"
  | None => "0"
  end.

(** [`${i}`] for an array index. *)
Definition indexToString (i : nat) : string :=
  NilEmpty.string_of_uint (Nat.to_uint i).

(** The row mapper builds its timestamps with [new Date] on calendar fields
    and reads the day of the week with [getDay]: both consult the time zone
    of the host the parser runs on.  That zone is the variable [LocalTZA] of
    this section: every definition from here on that depends on it, and
    every property proved of it, holds it as a parameter, whatever the zone
    is. *)
Section HostTimeZone.

Variable LocalTZA : TimeZone.

(** The part of the loop body under "Common Processing": the row is dropped
    ([continue]) or one transaction is pushed. *)
Definition commonProcessing (i : nat)
    (machineRaw amountRaw dateRaw timeRaw paymentRaw : string)
    (st : LoopState) : LoopState :=
  if negb (truthy dateRaw) || negb (matchesDate dateRaw) then st
  else
    let amount := parseCurrency amountRaw in
    let cycleType := determineCycleType machineRaw in
    let dateParts := split "/"%char dateRaw in
    let timeParts :=
      if truthy timeRaw then split ":"%char timeRaw else ["00"; "00"; "00"] in
    if negb (List.length dateParts =? 3) then st
    else
      let jsDate :=
        newDate LocalTZA
                (parseIntOpt (nth_error dateParts 2))
                (option_map (fun m => (m - 1)%Z)
                   (parseIntOpt (nth_error dateParts 1)))
                (parseIntOpt (nth_error dateParts 0))
                (parseInt (orZero (nth_error timeParts 0)))
                (parseInt (orZero (nth_error timeParts 1)))
                (parseInt (orZero (nth_error timeParts 2))) in
      {| st_unitName := st_unitName st;
         st_transactions :=
           st_transactions st ++
           [ {| id := (indexToString i ++ "-" ++ dateRaw ++ "-" ++ timeRaw
                       ++ "-" ++ machineRaw)%string;
                date := jsDate;
                rawDate := dateRaw;
                rawTime := timeRaw;
                productName := machineRaw;
                type := cycleType;
                amount := amount;
                paymentMethod := paymentRaw;
                machine := machineRaw;
                dayOfWeek := getDay LocalTZA jsDate |} ] |}.

Definition setUnitName (st : LoopState) (u : string) : LoopState :=
  {| st_unitName := u; st_transactions := st_transactions st |}.

(** One iteration of the row loop, at index [i]. *)
Definition rowBody (format : CsvFormat.t) (lines : list string) (i : nat)
    (st : LoopState) : M LoopState :=
  l <- deref (nth_error lines i) ;;
  let line := trim l in
  if startsWith line "Total" then Ok st
  else
    let cols := splitCsvLine line in
    match format with
    | CsvFormat.SELF_SERVICE =>
        if List.length cols <? 12 then Ok st
        else
          let machineRaw := field cols 6 "" in
          let amountRaw := field cols 9 "0" in
          let dateRaw := field cols 10 "" in
          let timeRaw := field cols 11 "00:00:00" in
          let paymentRaw := field cols 4 "" in
          u <- (if String.eqb (st_unitName st) defaultUnitName
                   && (0 <? List.length lines)
                then operador_loop lines (Nat.min (List.length lines) 50) 0
                       (st_unitName st)
                else Ok (st_unitName st)) ;;
          Ok (commonProcessing i machineRaw amountRaw dateRaw timeRaw
                paymentRaw (setUnitName st u))
    | CsvFormat.ATTENDANT =>
        if List.length cols <? 14 then Ok st
        else if negb (truthyOpt (nth_error cols 12)) then Ok st
        else
          c12 <- deref (nth_error cols 12) ;;
          if negb (includes c12 "/") then Ok st
          else
            let machineRaw := field cols 4 "" in
            let amountRaw := field cols 8 "0" in
            let dateRaw := field cols 12 "" in
            let timeRaw := field cols 13 "00:00:00" in
            let paymentRaw := field cols 5 "" in
            u <- (if String.eqb (st_unitName st) defaultUnitName
                     && truthyOpt (nth_error cols 0)
                  then
                    c0 <- deref (nth_error cols 0) ;;
                    let potentialName := trim (deleteAll isQuote c0) in
                    if truthy potentialName
                       && negb (String.eqb (toLowerCase potentialName) "cliente")
                    then Ok potentialName
                    else Ok (st_unitName st)
                  else Ok (st_unitName st)) ;;
            Ok (commonProcessing i machineRaw amountRaw dateRaw timeRaw
                  paymentRaw (setUnitName st u))
    | CsvFormat.UNKNOWN => Ok st
    end.

(** The row loop: [n] iterations are left, the next one at index [i]. *)
Fixpoint rowLoop (format : CsvFormat.t) (lines : list string) (n i : nat)
    (st : LoopState) : M LoopState :=
  match n with
  | O => Ok st
  | S n' =>
      st' <- rowBody format lines i st ;;
      rowLoop format lines n' (S i) st'
  end.

(** The lines the parser works on: the text split at line ends, without the
    lines [isLineEmpty] rejects. *)
Definition cleanLines (csvText : string) : list string :=
  filter (fun line => negb (isLineEmpty line)) (splitLines csvText).

(** [parseCSV].  The [console.warn] of the source, issued when a format was
    detected and no header row found, writes to the console only and leaves
    the result as it is; it is not modelled. *)
Definition parseCSV (csvText : string) : M ParseResult :=
  let lines := cleanLines csvText in
  format <- detectFormat lines ;;
  period <- extractPeriod lines ;;
  headerIndex <- headerIndex_loop lines (List.length lines) 0 ;;
  let startIndex :=
    match headerIndex with
    | None => 0
    | Some h => h + 1
    end in
  st <- rowLoop format lines (List.length lines - startIndex) startIndex
          {| st_unitName := defaultUnitName; st_transactions := [] |} ;;
  Ok {| metadata :=
          {| unitName := st_unitName st;
             period := period;
             reportType :=
               match format with
               | CsvFormat.ATTENDANT => "ATTENDANT"
               | _ => "SELF_SERVICE"
               end |};
        transactions := st_transactions st |}.

(** * The vocabulary of the properties

    The definitions below are used to state and prove the properties: the
    loops read as recursions on the list of lines, the predicates the
    statements speak of, and sample reports. *)

(** [c] occurs in [s]. *)
Fixpoint occurs (c : ascii) (s : string) : bool :=
  match s with
  | EmptyString => false
  | String x r => Ascii.eqb x c || occurs c r
  end.

Definition allDigits (s : string) : Prop :=
  forall c, occurs c s = true -> isDigit c = true.



(** The lookahead of the pattern of [splitCsvLine], read as a grammar: any
    number of groups of two runs of non-quotes each ended by a double quote,
    then a run of non-quotes up to the end of the line. *)
Inductive lookaheadMatches : string -> Prop :=
| lookahead_end (s : string) :
    occurs DQUOTE s = false -> lookaheadMatches s
| lookahead_group (a b r : string) :
    occurs DQUOTE a = false ->
    occurs DQUOTE b = false ->
    lookaheadMatches r ->
    lookaheadMatches (a ++ String DQUOTE (b ++ String DQUOTE r)).

(** [name] has a substring equal to [kw] up to the case of its letters. *)
Definition containsIgnoringCase (name kw : string) : Prop :=
  exists pre mid post,
    name = (pre ++ mid ++ post)%string /\ toLowerCase mid = toLowerCase kw.

(** The format a single line announces, if any. *)
Definition lineFormat (line : string) : option CsvFormat.t :=
  if includes line "Produtos" && includes line "Total Venda"
     && includes line "Data"
  then Some CsvFormat.SELF_SERVICE
  else if includes line "Nome Terminal" && includes line "Venda (R$)"
          && includes line "Data"
  then Some CsvFormat.ATTENDANT
  else None.

Fixpoint firstFormat (ls : list string) : CsvFormat.t :=
  match ls with
  | [] => CsvFormat.UNKNOWN
  | l :: r =>
      match lineFormat l with
      | Some f => f
      | None => firstFormat r
      end
  end.

(** The period a single line supplies, if any. *)
Definition linePeriod (line : string) : option string :=
  if includes line "Vendas de" then
    match find (fun p => includes p "Vendas de") (split ","%char line) with
    | Some periodPart =>
        if truthy periodPart then Some (cleanPeriod periodPart) else None
    | None => None
    end
  else None.

Fixpoint firstPeriod (ls : list string) : string :=
  match ls with
  | [] => defaultPeriod
  | l :: r =>
      match linePeriod l with
      | Some p => p
      | None => firstPeriod r
      end
  end.

Definition isHeader (line : string) : bool :=
  includes line "Data" && includes line "Hora".

(** The index of the first header line of [ls], counted from [i]. *)
Fixpoint findHeader (ls : list string) (i : nat) : option nat :=
  match ls with
  | [] => None
  | l :: r => if isHeader l then Some i else findHeader r (S i)
  end.

(** The name an "Operador:" line supplies, if any. *)
Definition lineOperador (line : string) : option string :=
  if startsWith line "Operador:" then
    match nth_error (splitCsvLine line) 1 with
    | Some p => if truthy p then Some (trim (deleteAll isQuote p)) else None
    | None => None
    end
  else None.

Fixpoint firstOperador (ls : list string) (unitName : string) : string :=
  match ls with
  | [] => unitName
  | l :: r =>
      match lineOperador l with
      | Some u => u
      | None => firstOperador r unitName
      end
  end.

(** The unit name after the SELF_SERVICE branch of an iteration. *)
Definition selfServiceName (lines : list string) (u : string) : string :=
  if String.eqb u defaultUnitName && (0 <? List.length lines)
  then firstOperador (firstn 50 lines) u
  else u.

(** The row-validity gate of the ATTENDANT branch. *)
Definition attendantGate (cols : list string) : bool :=
  (14 <=? List.length cols)
  && truthyOpt (nth_error cols 12)
  && includes (nth 12 cols "") "/".

(** The unit name after the ATTENDANT branch of an iteration. *)
Definition attendantName (cols : list string) (u : string) : string :=
  if String.eqb u defaultUnitName && truthyOpt (nth_error cols 0) then
    let potentialName := trim (deleteAll isQuote (nth 0 cols "")) in
    if truthy potentialName
       && negb (String.eqb (toLowerCase potentialName) "cliente")
    then potentialName
    else u
  else u.

(** One iteration of the row loop on the line [l] found at index [i]. *)
Definition rowStep (format : CsvFormat.t) (lines : list string) (i : nat)
    (l : string) (st : LoopState) : LoopState :=
  let line := trim l in
  if startsWith line "Total" then st
  else
    let cols := splitCsvLine line in
    match format with
    | CsvFormat.SELF_SERVICE =>
        if List.length cols <? 12 then st
        else
          commonProcessing i (field cols 6 "") (field cols 9 "0")
            (field cols 10 "") (field cols 11 "00:00:00") (field cols 4 "")
            (setUnitName st (selfServiceName lines (st_unitName st)))
    | CsvFormat.ATTENDANT =>
        if attendantGate cols then
          commonProcessing i (field cols 4 "") (field cols 8 "0")
            (field cols 12 "") (field cols 13 "00:00:00") (field cols 5 "")
            (setUnitName st (attendantName cols (st_unitName st)))
        else st
    | CsvFormat.UNKNOWN => st
    end.

(** The row loop on the rows [rows], the first of them at index [i]. *)
Fixpoint rowsFrom (format : CsvFormat.t) (lines : list string) (i : nat)
    (rows : list string) (st : LoopState) : LoopState :=
  match rows with
  | [] => st
  | l :: r => rowsFrom format lines (S i) r (rowStep format lines i l st)
  end.

(** The rows the loop visits: those after the header line, or all of them
    when there is no header line. *)
Fixpoint afterHeader (ls : list string) : option (list string) :=
  match ls with
  | [] => None
  | l :: r => if isHeader l then Some r else afterHeader r
  end.

Definition startIndexOf (lines : list string) : nat :=
  match findHeader lines 0 with
  | None => 0
  | Some h => h + 1
  end.

Definition dataRows (lines : list string) : list string :=
  match afterHeader lines with
  | Some r => r
  | None => lines
  end.

(** The result of [parseCSV], as a function of the text. *)
Definition parseResult (csvText : string) : ParseResult :=
  let lines := cleanLines csvText in
  let format := firstFormat (firstn 5000 lines) in
  let st := rowsFrom format lines (startIndexOf lines) (dataRows lines)
              {| st_unitName := defaultUnitName; st_transactions := [] |} in
  {| metadata :=
       {| unitName := st_unitName st;
          period := firstPeriod (firstn 5000 lines);
          reportType :=
            match format with
            | CsvFormat.ATTENDANT => "ATTENDANT"
            | _ => "SELF_SERVICE"
            end |};
     transactions := st_transactions st |}.

(** The timestamp the loop body builds from the two raw texts. *)
Definition buildDate (dateRaw timeRaw : string) : Date :=
  let dateParts := split "/"%char dateRaw in
  let timeParts :=
    if truthy timeRaw then split ":"%char timeRaw else ["00"; "00"; "00"] in
  newDate LocalTZA
          (parseIntOpt (nth_error dateParts 2))
          (option_map (fun m => (m - 1)%Z) (parseIntOpt (nth_error dateParts 1)))
          (parseIntOpt (nth_error dateParts 0))
          (parseInt (orZero (nth_error timeParts 0)))
          (parseInt (orZero (nth_error timeParts 1)))
          (parseInt (orZero (nth_error timeParts 2))).

(** What every pushed transaction looks like: its fields are functions of the
    row index and of the raw texts of the row. *)
Definition builtFromRow (tx : Transaction) : Prop :=
  matchesDate (rawDate tx) = true
  /\ date tx = buildDate (rawDate tx) (rawTime tx)
  /\ dayOfWeek tx = getDay LocalTZA (date tx)
  /\ productName tx = machine tx
  /\ type tx = determineCycleType (machine tx).

Definition sampleUnknown : string :=
  ("Relatorio de vendas" ++ String LF "a,b,c" ++ String LF "1,2,3")%string.

(** A row that passes the gate of the ATTENDANT branch. *)
Definition isValidAttendantRow (l : string) : bool :=
  negb (startsWith (trim l) "Total")
  && attendantGate (splitCsvLine (trim l)).

(** Column 0 of a row, quotes stripped and trimmed. *)
Definition column0 (l : string) : string :=
  trim (deleteAll isQuote (nth 0 (splitCsvLine (trim l)) "")).

(** A name that is neither empty nor "cliente" in any case of letters. *)
Definition acceptableName (p : string) : bool :=
  truthy p && negb (String.eqb (toLowerCase p) "cliente").

(** The candidate names of a report: column 0 of its valid rows, in order. *)
Definition candidateNames (rows : list string) : list string :=
  map column0 (filter isValidAttendantRow rows).

(** The unit name as the specification words it: the first acceptable
    candidate, set once. *)
Definition firstAcceptableName (rows : list string) : string :=
  hd defaultUnitName (filter acceptableName (candidateNames rows)).

(** The unit name as the loop computes it: a candidate equal to the
    placeholder leaves the variable as it was, so the next acceptable
    candidate replaces it. *)
Definition firstSettledName (rows : list string) : string :=
  hd defaultUnitName
     (filter (fun p => acceptableName p
                       && negb (String.eqb p defaultUnitName))
             (candidateNames rows)).

(** [s] between double quotes. *)
Definition quoted (s : string) : string :=
  (String DQUOTE s ++ String DQUOTE "")%string.

(** The two end-to-end scenarios of the specification: a SELF_SERVICE report
    with an "Operador:" line, and an ATTENDANT report. *)
Definition scenarioSelfService : string :=
  ("a,Produtos,b,Total Venda,c,Data,Hora" ++ String LF ""
   ++ "Operador:," ++ quoted "Lavanderia Centro" ++ String LF ""
   ++ ",,,," ++ quoted "Dinheiro" ++ ",," ++ quoted "Lavadora 3" ++ ",,,"
   ++ quoted "25,50" ++ "," ++ quoted "01/03/2024" ++ ","
   ++ quoted "14:30:00")%string.

Definition scenarioAttendant : string :=
  ("x,Nome Terminal,y,Venda (R$),z,Data,Hora" ++ String LF ""
   ++ quoted "Cliente X" ++ ",,,," ++ quoted "Secadora 1" ++ ","
   ++ quoted "Cartao" ++ ",,," ++ quoted "12,00" ++ ",,,,"
   ++ quoted "05/03/2024" ++ "," ++ quoted "09:15:00")%string.

(** An ATTENDANT report whose first valid data row carries the placeholder
    text itself in column 0. *)
Definition samplePlaceholderName : string :=
  ("Cliente,Nome Terminal,c,d,Produto,Pagamento,g,h,Venda (R$),j,k,l,Data,Hora"
   ++ String LF
   "Unidade Desconhecida,,,,Lavadora 1,Pix,,,R$ 15,,,,01/03/2024,10:00:00"
   ++ String LF
   "Lavanderia Sul,,,,Secadora 2,Dinheiro,,,R$ 12,,,,02/03/2024,11:30:00")%string.

(** An ATTENDANT report with one data row, dated 31 February. *)
Definition sampleDayOverflow : string :=
  ("Cliente,Nome Terminal,c,d,Produto,Pagamento,g,h,Venda (R$),j,k,l,Data,Hora"
   ++ String LF
   "Lavanderia Sul,,,,Secadora 2,Dinheiro,,,R$ 12,,,,31/02/2024,11:30:00")%string.

(** An ATTENDANT report with one data row, at half past midnight of
    4 November 2018. *)
Definition sampleSkippedHour : string :=
  ("Cliente,Nome Terminal,c,d,Produto,Pagamento,g,h,Venda (R$),j,k,l,Data,Hora"
   ++ String LF
   "Lavanderia Sul,,,,Secadora 2,Dinheiro,,,R$ 12,,,,04/11/2018,00:30:00")%string.

(** An ATTENDANT report with one data row, whose time is not numeric. *)
Definition sampleNonNumericTime : string :=
  ("Cliente,Nome Terminal,c,d,Produto,Pagamento,g,h,Venda (R$),j,k,l,Data,Hora"
   ++ String LF
   "Lavanderia Sul,,,,Secadora 3,Dinheiro,,,R$ 12,,,,05/03/2024,ab:cd:ef")%string.

(** An ATTENDANT report with a banner, a header, five data rows and a
    footer. *)
Definition sampleAttendant : string :=
  ("Relatorio,Vendas de 01/03/2024 ate 31/03/2024" ++ String LF
   "Cliente,Nome Terminal,c,d,Produto,Pagamento,g,h,Venda (R$),j,k,l,Data,Hora"
   ++ String LF
   "Cliente,,,,Lavadora 1,Pix,,,R$ 15,,,,01/03/2024,10:00:00" ++ String LF
   "Unidade Desconhecida,,,,Lavadora 1,Pix,,,R$ 15,,,,01/03/2024,10:00:00"
   ++ String LF
   "Lavanderia Sul,,,,Secadora 2,Dinheiro,,,R$ 12,,,,31/02/2024,11:30"
   ++ String LF
   "Outra,,,,Secadora 3,Dinheiro,,,-5,,,,05/03/2024,ab:cd:ef" ++ String LF
   "Total,,,,,,,,27,,,,," ++ String LF "")%string.

Fixpoint all (p : ascii -> bool) (s : string) : bool :=
  match s with
  | EmptyString => true
  | String c r => p c && all p r
  end.

(** Junk: white space and commas only. *)
Definition isNoise (c : ascii) : bool := isWhiteSpace c || isComma c.

(** The text of a block of lines, each one ended by a line feed. *)
Fixpoint linesText (js : list string) : string :=
  match js with
  | [] => ""
  | j :: r => (j ++ String LF (linesText r))%string
  end.

(** The insertion point is the start of a line: the start of the text, or
    just after a line feed. *)
Definition atLineStart (a : string) : Prop :=
  a = "" \/ exists a0, a = (a0 ++ String LF "")%string.

(** The length of month [mn] (0-based) of year [y]. *)
Definition DaysInMonth (y mn : Z) : Z :=
  match mn with
  | 1%Z => (28 + (if DaysInYear y =? 366 then 1 else 0))%Z
  | 3%Z | 5%Z | 8%Z | 10%Z => 30%Z
  | _ => 31%Z
  end.

Record CalendarFields : Type := {
  cf_day : Z;
  cf_month : Z;
  cf_year : Z;
  cf_hour : Z;
  cf_minute : Z;
  cf_second : Z
}.

(** The calendar fields the two raw texts of a row denote under the parse
    rule of the loop body: day/month/year, and hour:minute:second with the
    missing components of the time taken as 0.  [None] when a component is
    not a number. *)
Definition parsedFields (rawDate rawTime : string) : option CalendarFields :=
  let dateParts := split "/"%char rawDate in
  let timeParts :=
    if truthy rawTime then split ":"%char rawTime else ["00"; "00"; "00"] in
  match parseIntOpt (nth_error dateParts 0),
        parseIntOpt (nth_error dateParts 1),
        parseIntOpt (nth_error dateParts 2),
        parseInt (orZero (nth_error timeParts 0)),
        parseInt (orZero (nth_error timeParts 1)),
        parseInt (orZero (nth_error timeParts 2)) with
  | Some d, Some mo, Some y, Some h, Some mi, Some s =>
      Some {| cf_day := d; cf_month := mo; cf_year := y;
              cf_hour := h; cf_minute := mi; cf_second := s |}
  | _, _, _, _, _, _ => None
  end.

(** The calendar fields read back from a timestamp, the month 1-based;
    [None] for an Invalid Date, whose fields are NaN. *)
Definition timestampFields (d : Date) : option CalendarFields :=
  match getDate LocalTZA d, getMonth LocalTZA d, getFullYear LocalTZA d,
        getHours LocalTZA d, getMinutes LocalTZA d, getSeconds LocalTZA d with
  | Some dd, Some m, Some y, Some h, Some mi, Some s =>
      Some {| cf_day := dd; cf_month := (m + 1)%Z; cf_year := y;
              cf_hour := h; cf_minute := mi; cf_second := s |}
  | _, _, _, _, _, _ => None
  end.

(** The local time the calendar fields [f] denote, a four-digit year
    given: what [new Date] computes before it asks the zone for the
    instant. *)
Definition localTimeValue (f : CalendarFields) : Z :=
  MakeDate (MakeDay (cf_year f) (cf_month f - 1) (cf_day f))
           (MakeTime (cf_hour f) (cf_minute f) (cf_second f) 0).

(** The timestamp of [tx] has the calendar fields its raw texts denote. *)
Definition roundTrips (tx : Transaction) : Prop :=
  exists f,
    parsedFields (rawDate tx) (rawTime tx) = Some f
    /\ timestampFields (date tx) = Some f.

(** A date of the calendar with a four-digit year from 0100 on, and a time
    of day on the 24h clock. *)
Definition validCalendar (f : CalendarFields) : Prop :=
  (100 <= cf_year f <= 9999
   /\ 1 <= cf_month f <= 12
   /\ 1 <= cf_day f <= DaysInMonth (cf_year f) (cf_month f - 1)
   /\ 0 <= cf_hour f < 24
   /\ 0 <= cf_minute f < 60
   /\ 0 <= cf_second f < 60)%Z.

Definition firstOfMarch : CalendarFields :=
  {| cf_day := 1; cf_month := 3; cf_year := 2024;
     cf_hour := 10; cf_minute := 0; cf_second := 0 |}.

(** ** Vocabulary of the further properties *)

(** [text] with each line feed turned into a carriage return and a line
    feed. *)
Fixpoint toCRLF (text : string) : string :=
  match text with
  | EmptyString => EmptyString
  | String c r =>
      if Ascii.eqb c LF then String CR (String LF (toCRLF r))
      else String c (toCRLF r)
  end.

(** The transactions one iteration of the row loop pushes for the line [l]
    at index [i]: none or one. *)
Definition rowOutput (format : CsvFormat.t) (lines : list string) (i : nat)
    (l : string) : list Transaction :=
  st_transactions
    (rowStep format lines i l
       {| st_unitName := defaultUnitName; st_transactions := [] |}).

Fixpoint rowsOutput (format : CsvFormat.t) (lines : list string) (i : nat)
    (rows : list string) : list Transaction :=
  match rows with
  | [] => []
  | l :: r => rowOutput format lines i l ++ rowsOutput format lines (S i) r
  end.

(** The id of [tx] is made of the row index [k] and of its raw texts. *)
Definition hasRowIndex (k : nat) (tx : Transaction) : Prop :=
  id tx = (indexToString k ++ "-" ++ rawDate tx ++ "-" ++ rawTime tx
           ++ "-" ++ machine tx)%string.

(** [s] holds no quote, single or double. *)
Definition noQuote (s : string) : Prop :=
  occurs DQUOTE s = false /\ occurs SQUOTE s = false.

(** The texts of [tx] as the row mapper leaves them. *)
Definition cleanTransaction (k : nat) (tx : Transaction) : Prop :=
  hasRowIndex k tx
  /\ truthy (rawTime tx) = true
  /\ amount tx <> NaN
  /\ noQuote (rawDate tx)
  /\ noQuote (rawTime tx)
  /\ noQuote (machine tx)
  /\ noQuote (paymentMethod tx).

(** A row that passes the gate of the SELF_SERVICE branch. *)
Definition isSelfServiceRow (l : string) : bool :=
  negb (startsWith (trim l) "Total")
  && (12 <=? List.length (splitCsvLine (trim l))).

(** A digit or a dot: the characters of a numeral with grouping dots. *)
Definition isDigitOrDot (c : ascii) : bool := isDigit c || isDot c.

(** The time of day the raw time of a row denotes under the parse rule of
    the loop body: hour:minute:second, a missing component taken as 0;
    [None] when a component is not a number. *)
Definition parsedTime (rawTime : string) : option (Z * Z * Z) :=
  let timeParts :=
    if truthy rawTime then split ":"%char rawTime else ["00"; "00"; "00"] in
  match parseInt (orZero (nth_error timeParts 0)),
        parseInt (orZero (nth_error timeParts 1)),
        parseInt (orZero (nth_error timeParts 2)) with
  | Some h, Some mi, Some s => Some (h, mi, s)
  | _, _, _ => None
  end.

(** * Properties *)

(** ** Strings *)

Section StringFacts.

Lemma append_empty_r (s : string) : (s ++ "")%string = s.
Proof. induction s as [|c s IH]; simpl; [reflexivity | now rewrite IH]. Qed.

Lemma append_assoc (a b c : string) :
  ((a ++ b) ++ c)%string = (a ++ (b ++ c))%string.
Proof. induction a as [|x a IH]; simpl; [reflexivity | now rewrite IH]. Qed.

Lemma startsWith_iff (s p : string) :
  startsWith s p = true <-> exists r, s = (p ++ r)%string.
Proof.
  revert s; induction p as [|a p IH]; intros s; simpl.
  - split; [intros _; now exists s | intros _; now destruct s].
  - destruct s as [|b s]; simpl.
    + split; [discriminate | intros [r H]; discriminate].
    + rewrite andb_true_iff, Ascii.eqb_eq, IH. split.
      * intros [-> [r ->]]. now exists r.
      * intros [r H]. injection H as -> ->. split; [reflexivity | now exists r].
Qed.

Lemma startsWith_empty (s : string) : startsWith s "" = true.
Proof. now destruct s. Qed.

Lemma startsWith_append (p r : string) : startsWith (p ++ r) p = true.
Proof. apply startsWith_iff. now exists r. Qed.

Lemma includes_iff (s p : string) :
  includes s p = true <-> exists a b, s = (a ++ p ++ b)%string.
Proof.
  induction s as [|c s IH]; cbn [includes].
  - rewrite orb_false_r, startsWith_iff. split.
    + intros [r H]. now exists "", r.
    + intros [a [b H]]. destruct a; simpl in H; [now exists b | discriminate].
  - rewrite orb_true_iff, startsWith_iff, IH. split.
    + intros [[r H] | [a [b H]]].
      * now exists "", r.
      * exists (String c a), b. simpl. now rewrite H.
    + intros [a [b H]]. destruct a as [|x a]; simpl in H.
      * left. now exists b.
      * right. injection H as _ H. now exists a, b.
Qed.

Lemma toLowerCase_append (a b : string) :
  toLowerCase (a ++ b) = (toLowerCase a ++ toLowerCase b)%string.
Proof. induction a as [|c a IH]; simpl; [reflexivity | now rewrite IH]. Qed.

Lemma toLowerCase_split (s a b : string) :
  toLowerCase s = (a ++ b)%string ->
  exists s1 s2, s = (s1 ++ s2)%string /\ toLowerCase s1 = a /\ toLowerCase s2 = b.
Proof.
  revert s; induction a as [|x a IH]; intros s H; simpl in H.
  - now exists "", s.
  - destruct s as [|c s]; simpl in H; [discriminate |].
    injection H as Hc H. destruct (IH _ H) as [s1 [s2 [-> [H1 H2]]]].
    exists (String c s1), s2. simpl. now rewrite Hc, H1.
Qed.

Lemma occurs_append (c : ascii) (a b : string) :
  occurs c (a ++ b) = occurs c a || occurs c b.
Proof.
  induction a as [|x a IH]; simpl; [reflexivity |].
  now rewrite IH, orb_assoc.
Qed.

Lemma occurs_includes (c : ascii) (s : string) :
  includes s (String c "") = occurs c s.
Proof.
  induction s as [|x s IH]; simpl; [reflexivity |].
  rewrite IH, startsWith_empty, andb_true_r, (Ascii.eqb_sym c x).
  reflexivity.
Qed.

Lemma occurs_trimStart (c : ascii) (s : string) :
  occurs c s = false -> occurs c (trimStart s) = false.
Proof.
  induction s as [|x s IH]; simpl; [reflexivity |].
  intros H. apply orb_false_iff in H. destruct H as [Hx Hs].
  destruct (isWhiteSpace x); [auto | simpl; now rewrite Hx, Hs].
Qed.

Lemma occurs_trimEnd (c : ascii) (s : string) :
  occurs c s = false -> occurs c (trimEnd s) = false.
Proof.
  induction s as [|x s IH]; simpl; [reflexivity |].
  intros H. apply orb_false_iff in H. destruct H as [Hx Hs].
  specialize (IH Hs). destruct (trimEnd s) as [|y t].
  - destruct (isWhiteSpace x); simpl; [reflexivity | now rewrite Hx].
  - simpl in *. now rewrite Hx, IH.
Qed.

Lemma occurs_trim (c : ascii) (s : string) :
  occurs c s = false -> occurs c (trim s) = false.
Proof. intros H. unfold trim. now apply occurs_trimEnd, occurs_trimStart. Qed.

Lemma occurs_deleteAll (c : ascii) (cls : ascii -> bool) (s : string) :
  occurs c s = false -> occurs c (deleteAll cls s) = false.
Proof.
  induction s as [|x s IH]; simpl; [reflexivity |].
  intros H. apply orb_false_iff in H. destruct H as [Hx Hs].
  destruct (cls x); simpl; [auto | now rewrite Hx, IH].
Qed.



End StringFacts.

(** ** The pattern of the CSV line splitter *)

Section Lookahead.

Lemma countQuotes_append (a b : string) :
  countQuotes (a ++ b) = countQuotes a + countQuotes b.
Proof.
  induction a as [|c a IH]; simpl; [reflexivity |].
  destruct (Ascii.eqb c DQUOTE); simpl; now rewrite IH.
Qed.

Lemma countQuotes_zero (s : string) :
  countQuotes s = 0 <-> occurs DQUOTE s = false.
Proof.
  induction s as [|c s IH]; simpl; [tauto |].
  destruct (Ascii.eqb c DQUOTE); simpl; [split; discriminate | exact IH].
Qed.

Lemma countQuotes_first (s : string) (n : nat) :
  countQuotes s = S n ->
  exists a r,
    s = (a ++ String DQUOTE r)%string
    /\ occurs DQUOTE a = false /\ countQuotes r = n.
Proof.
  induction s as [|c s IH]; simpl; [discriminate |].
  destruct (Ascii.eqb c DQUOTE) eqn:E.
  - intros H. injection H as H. apply Ascii.eqb_eq in E. subst c.
    now exists "", s.
  - intros H. destruct (IH H) as [a [r [-> [Ha Hr]]]].
    exists (String c a), r. simpl. now rewrite E.
Qed.

Lemma lookaheadMatches_double (n : nat) (s : string) :
  countQuotes s = 2 * n -> lookaheadMatches s.
Proof.
  revert s; induction n as [|n IH]; intros s H.
  - apply lookahead_end. now apply countQuotes_zero.
  - replace (2 * S n) with (S (S (2 * n))) in H by lia.
    destruct (countQuotes_first _ _ H) as [a [s1 [-> [Ha H1]]]].
    destruct (countQuotes_first _ _ H1) as [b [r [-> [Hb Hr]]]].
    apply lookahead_group; auto.
Qed.

(** The lookahead succeeds exactly on an even number of double quotes:
    the condition [splitCsvLine] tests at each comma. *)
Lemma lookaheadMatches_iff (s : string) :
  lookaheadMatches s <-> Nat.even (countQuotes s) = true.
Proof.
  split.
  - induction 1 as [s Hs | a b r Ha Hb Hr IH].
    + apply countQuotes_zero in Hs. now rewrite Hs.
    + apply countQuotes_zero in Ha, Hb.
      rewrite countQuotes_append. cbn [countQuotes].
      rewrite Ascii.eqb_refl, countQuotes_append. cbn [countQuotes].
      rewrite Ascii.eqb_refl, Ha, Hb. exact IH.
  - intros H. apply Nat.even_spec in H. destruct H as [n Hn].
    now apply (lookaheadMatches_double n).
Qed.

End Lookahead.

(** ** Numerals *)

Section NumeralFacts.

Lemma allDigits_cons (c : ascii) (s : string) :
  isDigit c = true -> allDigits s -> allDigits (String c s).
Proof.
  intros Hc Hs x Hx. simpl in Hx. apply orb_true_iff in Hx.
  destruct Hx as [Hx | Hx]; [apply Ascii.eqb_eq in Hx; now subst | auto].
Qed.


Lemma allDigits_inv (c : ascii) (s : string) :
  allDigits (String c s) -> isDigit c = true /\ allDigits s.
Proof.
  intros H. split.
  - apply H. simpl. now rewrite Ascii.eqb_refl.
  - intros x Hx. apply H. simpl. now rewrite Hx, orb_true_r.
Qed.








Lemma isDigit_dot : isDigit "."%char = false.
Proof. reflexivity. Qed.



End NumeralFacts.

(** ** Currency normalization *)



Lemma parseCurrency_not_NaN (s : string) : parseCurrency s <> NaN.
Proof.
  unfold parseCurrency. destruct (truthy s); simpl; [|discriminate].
  destruct (parseFloat (cleanCurrency s)); simpl; discriminate.
Qed.





(** ** Cycle classification *)

Lemma includes_toLowerCase (name kw : string) :
  includes (toLowerCase name) (toLowerCase kw) = true <->
  containsIgnoringCase name kw.
Proof.
  rewrite includes_iff. split.
  - intros [a [b H]].
    destruct (toLowerCase_split _ _ _ H) as [pre [rest [-> [Ha H1]]]].
    destruct (toLowerCase_split _ _ _ H1) as [mid [post [-> [Hm Hb]]]].
    now exists pre, mid, post.
  - intros [pre [mid [post [-> Hm]]]].
    exists (toLowerCase pre), (toLowerCase post).
    now rewrite !toLowerCase_append, Hm.
Qed.

Lemma truthy_includes (s p : string) :
  truthy p = true -> includes s p = true -> truthy s = true.
Proof.
  destruct s; [|reflexivity]. destruct p; [discriminate |].
  simpl. discriminate.
Qed.

Lemma toLowerCase_truthy (s : string) : truthy (toLowerCase s) = truthy s.
Proof. now destruct s. Qed.

(** C2: [determineCycleType] is an ordered first-match keyword classifier,
    insensitive to case: a name containing "lava" is WASH; otherwise a name
    containing "seca" is DRY; otherwise the name is UNKNOWN, and so is the
    empty name; the four examples of the specification evaluate as stated,
    "LAVA-SECA" being WASH because "lava" is looked for first. *)
Theorem determineCycleType_ordered_classifier :
  forall name : string,
    (containsIgnoringCase name "lava" -> determineCycleType name = CycleType.WASH)
    /\ (~ containsIgnoringCase name "lava" ->
        containsIgnoringCase name "seca" -> determineCycleType name = CycleType.DRY)
    /\ (~ containsIgnoringCase name "lava" ->
        ~ containsIgnoringCase name "seca" ->
        determineCycleType name = CycleType.UNKNOWN)
    /\ determineCycleType "" = CycleType.UNKNOWN
    /\ determineCycleType "Lavadora 01" = CycleType.WASH
    /\ determineCycleType "Secadora Turbo" = CycleType.DRY
    /\ determineCycleType "LAVA-SECA" = CycleType.WASH.
Proof.
  intros name.
  pose proof (includes_toLowerCase name "lava") as Hl.
  pose proof (includes_toLowerCase name "seca") as Hs.
  change (toLowerCase "lava") with "lava" in Hl.
  change (toLowerCase "seca") with "seca" in Hs.
  unfold determineCycleType.
  split; [|split; [|split; [|repeat split]]].
  - intros H. apply Hl in H.
    assert (Ht : truthy name = true).
    { rewrite <- toLowerCase_truthy. now apply (truthy_includes _ "lava"). }
    now rewrite Ht, H.
  - intros Hn H. apply Hs in H.
    assert (Ht : truthy name = true).
    { rewrite <- toLowerCase_truthy. now apply (truthy_includes _ "seca"). }
    rewrite Ht. simpl.
    destruct (includes (toLowerCase name) "lava") eqn:E;
      [exfalso; now apply Hn, Hl | now rewrite H].
  - intros Hnl Hns. destruct (truthy name); simpl; [|reflexivity].
    destruct (includes (toLowerCase name) "lava") eqn:E;
      [exfalso; now apply Hnl, Hl |].
    destruct (includes (toLowerCase name) "seca") eqn:E';
      [exfalso; now apply Hns, Hs | reflexivity].
Qed.

Lemma determineCycleType_ordered_classifier_witness :
  determineCycleType "Maquina LaVa e sEcA 7" = CycleType.WASH
  /\ determineCycleType "SECADORA 2" = CycleType.DRY.
Proof.
  split.
  - apply (proj1 (determineCycleType_ordered_classifier "Maquina LaVa e sEcA 7")).
    exists "Maquina ", "LaVa", " e sEcA 7". split; reflexivity.
  - apply (proj1 (proj2 (determineCycleType_ordered_classifier "SECADORA 2"))).
    + intros H. apply includes_toLowerCase in H. discriminate H.
    + exists "", "SECA", "DORA 2". split; reflexivity.
Defined.

(** ** The loops, read as recursions on the list of lines

    Each [for] loop of the module indexes [lines] below its length, so no
    access is out of range; the loop then computes a recursion on the list.  *)

Section Loops.

Lemma nth_error_skipn {A : Type} (l : list A) (i : nat) (x : A) :
  nth_error l i = Some x -> skipn i l = x :: skipn (S i) l.
Proof.
  revert i; induction l as [|y l IH]; intros i H.
  - destruct i; discriminate.
  - destruct i as [|i]; simpl in *.
    + now injection H as ->.
    + now apply IH.
Qed.

Lemma nth_error_in_range {A : Type} (l : list A) (i : nat) :
  i < List.length l -> exists x, nth_error l i = Some x.
Proof.
  intros H. destruct (nth_error l i) eqn:E; [now eexists |].
  apply nth_error_None in E. lia.
Qed.

Lemma detectFormat_loop_eq (lines : list string) (n i : nat) :
  i + n <= List.length lines ->
  detectFormat_loop lines n i = Ok (firstFormat (firstn n (skipn i lines))).
Proof.
  revert i; induction n as [|n IH]; intros i H; simpl; [reflexivity |].
  destruct (nth_error_in_range lines i) as [l Hl]; [lia |].
  rewrite Hl, (nth_error_skipn _ _ _ Hl). simpl. unfold lineFormat.
  destruct (_ && _); [reflexivity |].
  destruct (_ && _); [reflexivity |].
  apply IH. lia.
Qed.

Lemma firstn_min_length {A : Type} (l : list A) (k : nat) :
  firstn (Nat.min (List.length l) k) l = firstn k l.
Proof.
  destruct (Nat.le_ge_cases (List.length l) k) as [H | H].
  - rewrite Nat.min_l by assumption.
    now rewrite firstn_all, firstn_all2.
  - now rewrite Nat.min_r.
Qed.

Lemma detectFormat_eq (lines : list string) :
  detectFormat lines = Ok (firstFormat (firstn 5000 lines)).
Proof.
  unfold detectFormat. rewrite detectFormat_loop_eq by (simpl; lia).
  simpl skipn. now rewrite firstn_min_length.
Qed.

Lemma extractPeriod_loop_eq (lines : list string) (n i : nat) :
  i + n <= List.length lines ->
  extractPeriod_loop lines n i = Ok (firstPeriod (firstn n (skipn i lines))).
Proof.
  revert i; induction n as [|n IH]; intros i H; simpl; [reflexivity |].
  destruct (nth_error_in_range lines i) as [l Hl]; [lia |].
  rewrite Hl, (nth_error_skipn _ _ _ Hl). simpl. unfold linePeriod.
  destruct (includes l "Vendas de"); [|apply IH; lia].
  destruct (find _ _) as [part|]; [|apply IH; lia].
  destruct (truthy part); [reflexivity | apply IH; lia].
Qed.

Lemma extractPeriod_eq (lines : list string) :
  extractPeriod lines = Ok (firstPeriod (firstn 5000 lines)).
Proof.
  unfold extractPeriod. rewrite extractPeriod_loop_eq by (simpl; lia).
  simpl skipn. now rewrite firstn_min_length.
Qed.

Lemma headerIndex_loop_eq (lines : list string) (n i : nat) :
  i + n <= List.length lines ->
  headerIndex_loop lines n i = Ok (findHeader (firstn n (skipn i lines)) i).
Proof.
  revert i; induction n as [|n IH]; intros i H; simpl; [reflexivity |].
  destruct (nth_error_in_range lines i) as [l Hl]; [lia |].
  rewrite Hl, (nth_error_skipn _ _ _ Hl). simpl. unfold isHeader.
  destruct (_ && _); [reflexivity | apply IH; lia].
Qed.

Lemma findHeader_range (ls : list string) (i h : nat) :
  findHeader ls i = Some h -> i <= h < i + List.length ls.
Proof.
  revert i; induction ls as [|l r IH]; intros i H; simpl in *.
  - discriminate.
  - destruct (isHeader l).
    + injection H as <-. lia.
    + apply IH in H. lia.
Qed.

Lemma operador_loop_eq (lines : list string) (n j : nat) (u : string) :
  j + n <= List.length lines ->
  operador_loop lines n j u = Ok (firstOperador (firstn n (skipn j lines)) u).
Proof.
  revert j; induction n as [|n IH]; intros j H; cbn [operador_loop];
    [reflexivity |].
  destruct (nth_error_in_range lines j) as [l Hl]; [lia |].
  rewrite Hl, (nth_error_skipn _ _ _ Hl).
  cbn [bind deref firstn firstOperador]. unfold lineOperador.
  destruct (startsWith l "Operador:"); [|apply IH; lia].
  destruct (nth_error _ 1) as [part|]; [|apply IH; lia].
  destruct (truthy part); [reflexivity | apply IH; lia].
Qed.

Lemma nth_error_nth_default (l : list string) (k : nat) (x : string) :
  nth_error l k = Some x -> nth k l "" = x.
Proof. intros H. now apply nth_error_nth. Qed.

Lemma rowBody_eq (format : CsvFormat.t) (lines : list string) (i : nat)
    (l : string) (st : LoopState) :
  nth_error lines i = Some l ->
  rowBody format lines i st = Ok (rowStep format lines i l st).
Proof.
  intros Hl. unfold rowBody, rowStep. rewrite Hl. cbn [bind deref].
  destruct (startsWith (trim l) "Total"); [reflexivity |].
  destruct format; [| |reflexivity].
  - destruct (_ <? 12); [reflexivity |].
    unfold selfServiceName.
    destruct (_ && _); [|reflexivity].
    rewrite operador_loop_eq by (simpl; lia). simpl skipn.
    now rewrite firstn_min_length.
  - unfold attendantGate, attendantName.
    set (cols := splitCsvLine (trim l)).
    destruct (List.length cols <? 14) eqn:E14.
    + apply Nat.ltb_lt in E14.
      rewrite (proj2 (Nat.leb_gt 14 (List.length cols))) by lia. reflexivity.
    + apply Nat.ltb_ge in E14.
      rewrite (proj2 (Nat.leb_le 14 (List.length cols))) by lia.
      destruct (nth_error cols 12) as [c12|] eqn:E12;
        cbn [truthyOpt negb andb bind deref]; [|reflexivity].
      rewrite (nth_error_nth_default _ _ _ E12).
      destruct (truthy c12); cbn [negb andb]; [|reflexivity].
      destruct (includes c12 "/"); cbn [negb]; [|reflexivity].
      destruct (String.eqb (st_unitName st) defaultUnitName);
        cbn [andb bind]; [|reflexivity].
      destruct (nth_error cols 0) as [c0|] eqn:E0;
        cbn [truthyOpt bind deref]; [|reflexivity].
      rewrite (nth_error_nth_default _ _ _ E0).
      destruct (truthy c0); cbn [bind deref]; [|reflexivity].
      destruct (_ && _); reflexivity.
Qed.

Lemma rowLoop_eq (format : CsvFormat.t) (lines : list string) (n i : nat)
    (st : LoopState) :
  i + n <= List.length lines ->
  rowLoop format lines n i st
  = Ok (rowsFrom format lines i (firstn n (skipn i lines)) st).
Proof.
  revert i st; induction n as [|n IH]; intros i st H; simpl; [reflexivity |].
  destruct (nth_error_in_range lines i) as [l Hl]; [lia |].
  rewrite (rowBody_eq _ _ _ _ _ Hl), (nth_error_skipn _ _ _ Hl). simpl.
  apply IH. lia.
Qed.

Lemma findHeader_afterHeader (ls : list string) (i : nat) :
  match findHeader ls i with
  | Some h => afterHeader ls = Some (skipn (h + 1 - i) ls)
  | None => afterHeader ls = None
  end.
Proof.
  revert i; induction ls as [|l r IH]; intros i; simpl; [reflexivity |].
  destruct (isHeader l).
  - replace (i + 1 - i) with 1 by lia. reflexivity.
  - specialize (IH (S i)).
    destruct (findHeader r (S i)) as [h|] eqn:E; [|assumption].
    apply findHeader_range in E.
    replace (h + 1 - i) with (S (h + 1 - S i)) by lia. assumption.
Qed.

Lemma skipn_startIndexOf (lines : list string) :
  skipn (startIndexOf lines) lines = dataRows lines.
Proof.
  unfold startIndexOf, dataRows.
  pose proof (findHeader_afterHeader lines 0) as H.
  destruct (findHeader lines 0) as [h|]; rewrite H; [|reflexivity].
  now rewrite Nat.sub_0_r.
Qed.

Lemma startIndexOf_le (lines : list string) :
  startIndexOf lines <= List.length lines.
Proof.
  unfold startIndexOf. destruct (findHeader lines 0) as [h|] eqn:E; [|lia].
  apply findHeader_range in E. lia.
Qed.

Lemma parseCSV_eq (csvText : string) :
  parseCSV csvText = Ok (parseResult csvText).
Proof.
  unfold parseCSV, parseResult.
  set (lines := cleanLines csvText).
  rewrite detectFormat_eq, extractPeriod_eq. simpl bind.
  rewrite headerIndex_loop_eq by (simpl; lia). simpl skipn.
  rewrite firstn_all. simpl bind.
  fold (startIndexOf lines).
  pose proof (startIndexOf_le lines) as Hle.
  rewrite rowLoop_eq by lia. simpl bind.
  rewrite firstn_all2 by (rewrite length_skipn; lia).
  now rewrite skipn_startIndexOf.
Qed.

End Loops.

(** ** The row loop *)

Section Rows.

Lemma commonProcessing_unitName (i : nat) (m a d t p : string) (st : LoopState) :
  st_unitName (commonProcessing i m a d t p st) = st_unitName st.
Proof.
  unfold commonProcessing.
  destruct (_ || _); [reflexivity |].
  destruct (negb (_ =? 3)); reflexivity.
Qed.

Lemma commonProcessing_transactions (i : nat) (m a d t p : string)
    (st : LoopState) :
  st_transactions (commonProcessing i m a d t p st) = st_transactions st
  \/ exists tx,
       st_transactions (commonProcessing i m a d t p st)
       = st_transactions st ++ [tx]
       /\ builtFromRow tx.
Proof.
  unfold commonProcessing.
  destruct (negb (truthy d) || negb (matchesDate d)) eqn:E; [now left |].
  destruct (negb (_ =? 3)); [now left |].
  right. eexists. split; [reflexivity |].
  apply orb_false_iff in E. destruct E as [_ E].
  apply negb_false_iff in E.
  unfold builtFromRow. cbn [rawDate rawTime date dayOfWeek productName machine type].
  repeat split; assumption.
Qed.

Lemma rowStep_transactions (format : CsvFormat.t) (lines : list string) (i : nat)
    (l : string) (st : LoopState) :
  st_transactions (rowStep format lines i l st) = st_transactions st
  \/ exists tx,
       st_transactions (rowStep format lines i l st) = st_transactions st ++ [tx]
       /\ builtFromRow tx.
Proof.
  unfold rowStep.
  destruct (startsWith (trim l) "Total"); [now left |].
  destruct format; [| |now left].
  - destruct (_ <? 12); [now left |].
    exact (commonProcessing_transactions _ _ _ _ _ _ (setUnitName st _)).
  - destruct (attendantGate _); [|now left].
    exact (commonProcessing_transactions _ _ _ _ _ _ (setUnitName st _)).
Qed.

Lemma rowsFrom_builtFromRow (format : CsvFormat.t) (lines rows : list string)
    (i : nat) (st : LoopState) :
  Forall builtFromRow (st_transactions st) ->
  Forall builtFromRow (st_transactions (rowsFrom format lines i rows st)).
Proof.
  revert i st; induction rows as [|l rows IH]; intros i st H; simpl.
  - assumption.
  - apply IH.
    destruct (rowStep_transactions format lines i l st) as [E | [tx [E Htx]]];
      rewrite E; [assumption |].
    apply Forall_app. split; [assumption | now constructor].
Qed.

Lemma parseResult_builtFromRow (csvText : string) :
  Forall builtFromRow (transactions (parseResult csvText)).
Proof. unfold parseResult. simpl. apply rowsFrom_builtFromRow. constructor. Qed.

Lemma rowsFrom_unknown (lines rows : list string) (i : nat) (st : LoopState) :
  rowsFrom CsvFormat.UNKNOWN lines i rows st = st.
Proof.
  revert i st; induction rows as [|l rows IH]; intros i st; simpl.
  - reflexivity.
  - rewrite IH. unfold rowStep. now destruct (startsWith _ _).
Qed.

Lemma firstPeriod_default (ls : list string) :
  (forall l, In l ls -> includes l "Vendas de" = false) ->
  firstPeriod ls = defaultPeriod.
Proof.
  induction ls as [|l r IH]; intros H; simpl; [reflexivity |].
  unfold linePeriod. rewrite (H l) by now left.
  apply IH. intros x Hx. apply H. now right.
Qed.

End Rows.

(** C9: for every input text, [parseCSV] returns a [ParseResult]: none of its
    array accesses is out of range where a method is called on the element,
    so no exception reaches the caller. *)
Theorem parseCSV_never_throws :
  forall csvText : string,
    (exists r, parseCSV csvText = Ok r)
    /\ (forall e, parseCSV csvText <> Throw e).
Proof.
  intros csvText. rewrite parseCSV_eq. split; [now eexists | discriminate].
Qed.

(** C4: for every input text, [metadata.reportType] of the result is
    "ATTENDANT" exactly when the detected layout is ATTENDANT, and
    "SELF_SERVICE" in every other case, the UNKNOWN layout included. *)
Theorem reportType_follows_format :
  forall csvText : string,
    exists r format,
      parseCSV csvText = Ok r
      /\ detectFormat (cleanLines csvText) = Ok format
      /\ (reportType (metadata r) = "ATTENDANT" <-> format = CsvFormat.ATTENDANT)
      /\ (reportType (metadata r) = "SELF_SERVICE" <-> format <> CsvFormat.ATTENDANT)
      /\ (format = CsvFormat.UNKNOWN -> reportType (metadata r) = "SELF_SERVICE").
Proof.
  intros csvText. rewrite parseCSV_eq, detectFormat_eq.
  eexists. eexists. split; [reflexivity |]. split; [reflexivity |].
  unfold parseResult. cbn [metadata reportType].
  destruct (firstFormat _); repeat split; try discriminate; try reflexivity;
    try congruence.
Qed.

(** C3: for every input text on which format detection returns UNKNOWN,
    [parseCSV] returns normally, with no transaction, with the unit name
    "Unidade Desconhecida", and with the placeholder period whenever no
    scanned line announces a period ("Vendas de"). *)
Theorem unknown_format_empty_result :
  forall csvText : string,
    detectFormat (cleanLines csvText) = Ok CsvFormat.UNKNOWN ->
    exists r,
      parseCSV csvText = Ok r
      /\ transactions r = []
      /\ unitName (metadata r) = defaultUnitName
      /\ ((forall l, In l (firstn 5000 (cleanLines csvText)) ->
                     includes l "Vendas de" = false) ->
          period (metadata r) = defaultPeriod).
Proof.
  intros csvText Hf. rewrite detectFormat_eq in Hf.
  assert (Hu : firstFormat (firstn 5000 (cleanLines csvText)) = CsvFormat.UNKNOWN)
    by congruence.
  rewrite parseCSV_eq. eexists. split; [reflexivity |].
  unfold parseResult. rewrite Hu, rowsFrom_unknown.
  cbn [transactions metadata unitName period st_unitName st_transactions].
  repeat split. apply firstPeriod_default.
Qed.

(** C10: in every transaction [parseCSV] emits, [productName] and [machine]
    are equal: both are the raw machine column of the row. *)
Theorem productName_equals_machine :
  forall csvText : string,
    exists r,
      parseCSV csvText = Ok r
      /\ forall tx, In tx (transactions r) -> productName tx = machine tx.
Proof.
  intros csvText. rewrite parseCSV_eq. eexists. split; [reflexivity |].
  intros tx Hin.
  pose proof (parseResult_builtFromRow csvText) as H.
  rewrite Forall_forall in H. now apply (H tx Hin).
Qed.

(** ** The unit name of an ATTENDANT report *)

Section AttendantUnitName.

Lemma attendantName_eq (l : string) (u : string) :
  attendantName (splitCsvLine (trim l)) u
  = if String.eqb u defaultUnitName && acceptableName (column0 l)
    then column0 l else u.
Proof.
  unfold attendantName, acceptableName, column0.
  destruct (String.eqb u defaultUnitName); [|reflexivity]. cbn [andb].
  destruct (nth_error (splitCsvLine (trim l)) 0) as [c0|] eqn:E.
  - rewrite (nth_error_nth_default _ _ _ E). cbn [truthyOpt].
    destruct c0 as [|c c0]; reflexivity.
  - apply nth_error_None in E.
    rewrite nth_overflow by assumption. reflexivity.
Qed.

Lemma rowStep_attendant_unitName (lines : list string) (i : nat) (l : string)
    (st : LoopState) :
  st_unitName (rowStep CsvFormat.ATTENDANT lines i l st)
  = if isValidAttendantRow l
       && String.eqb (st_unitName st) defaultUnitName
       && acceptableName (column0 l)
    then column0 l else st_unitName st.
Proof.
  unfold rowStep, isValidAttendantRow.
  destruct (startsWith (trim l) "Total"); [reflexivity |]. cbn [negb andb].
  destruct (attendantGate _); [|reflexivity]. cbn [andb].
  rewrite commonProcessing_unitName. cbn [setUnitName st_unitName].
  apply attendantName_eq.
Qed.

Lemma rowsFrom_attendant_unitName (lines rows : list string) (i : nat)
    (st : LoopState) :
  st_unitName (rowsFrom CsvFormat.ATTENDANT lines i rows st)
  = if String.eqb (st_unitName st) defaultUnitName
    then firstSettledName rows else st_unitName st.
Proof.
  revert i st; induction rows as [|l rows IH]; intros i st.
  - simpl. destruct (String.eqb_spec (st_unitName st) defaultUnitName) as [E|E];
      [now rewrite E | reflexivity].
  - cbn [rowsFrom]. rewrite IH, rowStep_attendant_unitName.
    unfold firstSettledName, candidateNames. cbn [filter].
    destruct (isValidAttendantRow l); cbn [andb map filter]; [|reflexivity].
    destruct (String.eqb_spec (st_unitName st) defaultUnitName) as [E|E];
      cbn [andb].
    + destruct (acceptableName (column0 l)); cbn [andb].
      * destruct (String.eqb_spec (column0 l) defaultUnitName) as [E'|E'];
          cbn [negb hd]; reflexivity.
      * rewrite E. reflexivity.
    + destruct (String.eqb_spec (st_unitName st) defaultUnitName);
        [contradiction | reflexivity].
Qed.

End AttendantUnitName.

(** C7, as the code has it: when the detected layout is ATTENDANT,
    [metadata.unitName] is column 0 (quotes stripped, trimmed) of the first
    valid data row whose value is not empty, is not "cliente" in any case of
    letters, and is not the placeholder "Unidade Desconhecida" itself; it
    remains "Unidade Desconhecida" if no valid row supplies such a value. *)
Theorem attendant_unitName_first_settled :
  forall csvText : string,
    detectFormat (cleanLines csvText) = Ok CsvFormat.ATTENDANT ->
    exists r,
      parseCSV csvText = Ok r
      /\ unitName (metadata r)
         = firstSettledName (dataRows (cleanLines csvText)).
Proof.
  intros csvText Hf. rewrite detectFormat_eq in Hf.
  assert (Ha : firstFormat (firstn 5000 (cleanLines csvText)) = CsvFormat.ATTENDANT)
    by congruence.
  rewrite parseCSV_eq. eexists. split; [reflexivity |].
  unfold parseResult. rewrite Ha. cbn [metadata unitName].
  now rewrite rowsFrom_attendant_unitName.
Qed.

(** ** The line normalizer *)

Section LineNormalizer.

Lemma all_append (p : ascii -> bool) (a b : string) :
  all p (a ++ b) = all p a && all p b.
Proof.
  induction a as [|c a IH]; simpl; [reflexivity |].
  now rewrite IH, andb_assoc.
Qed.

Lemma trimStart_all (s : string) :
  all isWhiteSpace (trimStart s) = all isWhiteSpace s.
Proof.
  induction s as [|c s IH]; simpl; [reflexivity |].
  destruct (isWhiteSpace c) eqn:E; simpl; [assumption | now rewrite E].
Qed.

Lemma trimEnd_empty_iff (s : string) :
  trimEnd s = "" <-> all isWhiteSpace s = true.
Proof.
  induction s as [|c s IH]; simpl; [tauto |].
  destruct (trimEnd s) as [|x t].
  - destruct (isWhiteSpace c); simpl.
    + split; [intros _; now apply IH | reflexivity].
    + split; discriminate.
  - split; [discriminate |]. intros H. apply andb_true_iff in H.
    destruct H as [_ H]. apply IH in H. discriminate.
Qed.

Lemma trim_empty_iff (s : string) :
  trim s = "" <-> all isWhiteSpace s = true.
Proof. unfold trim. now rewrite trimEnd_empty_iff, trimStart_all. Qed.

Lemma all_deleteAll_comma (s : string) :
  all isWhiteSpace (deleteAll isComma s) = all isNoise s.
Proof.
  induction s as [|c s IH]; simpl; [reflexivity |]. unfold isNoise at 1.
  destruct (isComma c) eqn:E; simpl.
  - now rewrite orb_true_r.
  - now rewrite orb_false_r, IH.
Qed.

Lemma all_weaken (p q : ascii -> bool) (s : string) :
  (forall c, p c = true -> q c = true) -> all p s = true -> all q s = true.
Proof.
  intros Hpq. induction s as [|c s IH]; simpl; [reflexivity |].
  intros H. apply andb_true_iff in H. destruct H as [Hc Hs].
  now rewrite (Hpq c Hc), IH.
Qed.

Lemma length_zero_iff (s : string) : (String.length s =? 0) = true <-> s = "".
Proof. destruct s; simpl; split; try reflexivity; discriminate. Qed.

(** [isLineEmpty] drops exactly the lines of white space and commas. *)
Lemma isLineEmpty_iff (s : string) :
  isLineEmpty s = true <-> all isNoise s = true.
Proof.
  unfold isLineEmpty.
  destruct (negb (truthy s) || negb (truthy (trim s))) eqn:E.
  - split; [intros _ | reflexivity].
    apply orb_true_iff in E. destruct E as [E | E].
    + destruct s; [reflexivity | discriminate].
    + apply (all_weaken isWhiteSpace).
      * intros c Hc. unfold isNoise. now rewrite Hc.
      * apply trim_empty_iff. destruct (trim s); [reflexivity | discriminate].
  - now rewrite length_zero_iff, trim_empty_iff, all_deleteAll_comma.
Qed.

Lemma splitLines_nonempty (s : string) : splitLines s <> [].
Proof.
  induction s as [|c s IH]; simpl; [discriminate |].
  destruct (Ascii.eqb c LF); [discriminate |].
  destruct (_ && _); [assumption |].
  destruct (splitLines s); discriminate.
Qed.

Lemma splitLines_noise (s : string) :
  all isNoise s = true ->
  Forall (fun p => isLineEmpty p = true) (splitLines s).
Proof.
  induction s as [|c s IH]; simpl.
  - intros _. now constructor.
  - intros H. apply andb_true_iff in H. destruct H as [Hc Hs].
    specialize (IH Hs).
    destruct (Ascii.eqb c LF); [now constructor |].
    destruct (_ && _); [assumption |].
    destruct (splitLines s) as [|h t] eqn:E;
      [now apply splitLines_nonempty in E |].
    inversion IH as [|? ? Hh Ht]; subst. constructor; [|assumption].
    apply isLineEmpty_iff. simpl. rewrite Hc. now apply isLineEmpty_iff.
Qed.

Lemma startsWith_LF_append (x y : string) :
  startsWith (x ++ String LF y) (String LF "")
  = startsWith (x ++ String LF "") (String LF "").
Proof.
  destruct x as [|c x]; simpl; now rewrite !startsWith_empty.
Qed.

Lemma removelast_cons_app {A : Type} (h : A) (t l : list A) :
  t <> [] -> removelast (h :: t) ++ l = h :: (removelast t ++ l).
Proof. intros H. destruct t; [contradiction | reflexivity]. Qed.

Lemma splitLines_two (x : string) :
  exists h t, splitLines (x ++ String LF "") = h :: t /\ t <> [].
Proof.
  induction x as [|c x IH]; cbn [append splitLines].
  - exists "", [""]. split; [reflexivity | discriminate].
  - destruct IH as [h [t [E Ht]]].
    destruct (Ascii.eqb c LF).
    + eexists. eexists. split; [reflexivity |]. apply splitLines_nonempty.
    + destruct (_ && _); [now exists h, t |].
      rewrite E. now exists (String c h), t.
Qed.

(** The lines of a text, cut at one of its line feeds: what precedes the
    line feed contributes the same lines whatever follows it. *)
Lemma splitLines_append_LF (x y : string) :
  splitLines (x ++ String LF y)
  = removelast (splitLines (x ++ String LF "")) ++ splitLines y.
Proof.
  induction x as [|c x IH]; cbn [append].
  - reflexivity.
  - cbn [splitLines]. rewrite startsWith_LF_append.
    destruct (splitLines_two x) as [h [t [E Ht]]].
    destruct (Ascii.eqb c LF).
    + rewrite IH, E. rewrite (removelast_cons_app "" (h :: t)) by discriminate.
      reflexivity.
    + destruct (_ && _); [assumption |].
      rewrite IH, E. rewrite !removelast_cons_app by assumption. reflexivity.
Qed.

Lemma Forall_removelast {A : Type} (P : A -> Prop) (l : list A) :
  Forall P l -> Forall P (removelast l).
Proof.
  induction 1 as [|x l Hx Hl IH]; simpl; [constructor |].
  destruct l; [constructor | now constructor].
Qed.

Lemma filter_none {A : Type} (f : A -> bool) (l : list A) :
  Forall (fun x => f x = false) l -> filter f l = [].
Proof.
  induction 1 as [|x l Hx Hl IH]; simpl; [reflexivity | now rewrite Hx].
Qed.

Lemma cleanLines_append_LF (x y : string) :
  cleanLines (x ++ String LF y)
  = cleanLines (x ++ String LF "") ++ cleanLines y.
Proof.
  unfold cleanLines.
  pose proof (splitLines_append_LF x "") as H0. cbn [splitLines] in H0.
  rewrite (splitLines_append_LF x y).
  set (R := removelast (splitLines (x ++ String LF ""))) in *.
  rewrite H0, !filter_app. simpl. now rewrite app_nil_r.
Qed.

Lemma cleanLines_junk_line (j y : string) :
  isLineEmpty j = true -> cleanLines (j ++ String LF y) = cleanLines y.
Proof.
  intros Hj. unfold cleanLines.
  rewrite splitLines_append_LF, filter_app.
  rewrite filter_none; [reflexivity |].
  apply Forall_removelast.
  assert (Hn : all isNoise (j ++ String LF "") = true).
  { rewrite all_append. apply isLineEmpty_iff in Hj. now rewrite Hj. }
  apply splitLines_noise in Hn.
  eapply Forall_impl; [|exact Hn]. intros p Hp. simpl. now rewrite Hp.
Qed.

Lemma cleanLines_junk_block (js : list string) (y : string) :
  Forall (fun j => isLineEmpty j = true) js ->
  cleanLines (linesText js ++ y) = cleanLines y.
Proof.
  induction 1 as [|j js Hj Hjs IH]; simpl; [reflexivity |].
  rewrite append_assoc. cbn [append].
  now rewrite cleanLines_junk_line.
Qed.

End LineNormalizer.

Lemma parseCSV_cleanLines (t t' : string) :
  cleanLines t = cleanLines t' -> parseCSV t = parseCSV t'.
Proof. intros H. unfold parseCSV. now rewrite H. Qed.

(** C8: inserting lines that are blank, of white space only, or of commas
    (with or without white space) only, at the start of any line of a text,
    so anywhere before its header row, changes neither the lines the parser
    keeps, nor the detected layout, nor the result of the parse, and so not
    the number of transactions extracted: the line normalizer drops exactly
    such lines and keeps the other lines in their order. *)
Theorem junk_lines_do_not_change_parse :
  forall (a b : string) (js : list string),
    atLineStart a ->
    Forall (fun j => all isNoise j = true) js ->
    Forall (fun j => isLineEmpty j = true) js
    /\ cleanLines (a ++ linesText js ++ b) = cleanLines (a ++ b)
    /\ detectFormat (cleanLines (a ++ linesText js ++ b))
       = detectFormat (cleanLines (a ++ b))
    /\ exists r,
         parseCSV (a ++ b) = Ok r
         /\ parseCSV (a ++ linesText js ++ b) = Ok r
         /\ (forall r', parseCSV (a ++ linesText js ++ b) = Ok r' ->
                        List.length (transactions r')
                        = List.length (transactions r)).
Proof.
  intros a b js Ha Hnoise.
  assert (Hjs : Forall (fun j => isLineEmpty j = true) js).
  { eapply Forall_impl; [|exact Hnoise]. intros j Hj. now apply isLineEmpty_iff. }
  assert (E : cleanLines (a ++ linesText js ++ b) = cleanLines (a ++ b)).
  { destruct Ha as [-> | [a0 ->]]; cbn [append].
    - now apply cleanLines_junk_block.
    - rewrite !append_assoc. cbn [append].
      rewrite (cleanLines_append_LF a0 (linesText js ++ b)).
      rewrite (cleanLines_append_LF a0 b).
      f_equal. now apply cleanLines_junk_block. }
  split; [exact Hjs |]. split; [exact E |]. split; [now rewrite E |].
  rewrite (parseCSV_cleanLines _ _ E), parseCSV_eq.
  eexists. split; [reflexivity |]. split; [reflexivity |].
  intros r' Hr'. now injection Hr' as <-.
Qed.

(** Under the UNKNOWN layout the period is still the one the text announces,
    when it announces one. *)
Example unknown_format_keeps_announced_period :
  exists r,
    parseCSV ("Vendas de 01/03 ate 31/03,x" ++ String LF "1,2,3") = Ok r
    /\ reportType (metadata r) = "SELF_SERVICE"
    /\ transactions r = []
    /\ period (metadata r) = "01/03 - 31/03".
Proof. eexists. split; [vm_compute; reflexivity |]. repeat split. Qed.

(** ** The calendar of the Date object *)

Section Calendar.

Local Open Scope Z_scope.

Lemma DayFromYear_succ (y : Z) :
  DayFromYear (y + 1) = DayFromYear y + DaysInYear y.
Proof.
  unfold DayFromYear, DaysInYear.
  destruct (Z.eqb_spec (y mod 4) 0); cbn [negb];
    [destruct (Z.eqb_spec (y mod 100) 0); cbn [negb];
     [destruct (Z.eqb_spec (y mod 400) 0); cbn [negb] |] |];
    Z.div_mod_to_equations; lia.
Qed.

Lemma DayFromYear_lt (y y' : Z) : y < y' -> DayFromYear y < DayFromYear y'.
Proof. unfold DayFromYear. intros H. Z.div_mod_to_equations. lia. Qed.

Lemma DayFromYear_le (y y' : Z) : y <= y' -> DayFromYear y <= DayFromYear y'.
Proof.
  intros H. destruct (Z.eq_dec y y') as [-> | Hne]; [lia |].
  pose proof (DayFromYear_lt y y'). lia.
Qed.

Lemma DaysInYear_cases (y : Z) : DaysInYear y = 365 \/ DaysInYear y = 366.
Proof.
  unfold DaysInYear.
  destruct (negb _); [now left |].
  destruct (negb _); [now right |].
  destruct (negb _); [now left | now right].
Qed.

(** The estimate of [YearFromDay] is off by at most one. *)
Lemma YearFromDay_estimate (d : Z) :
  let y := 1970 + (400 * d) / 146097 in
  DayFromYear (y - 1) <= d < DayFromYear (y + 2).
Proof.
  cbv zeta. unfold DayFromYear. split; Z.div_mod_to_equations; lia.
Qed.

Lemma YearFromDay_bounds (d : Z) :
  DayFromYear (YearFromDay d) <= d < DayFromYear (YearFromDay d + 1).
Proof.
  pose proof (YearFromDay_estimate d) as H. cbv zeta in H.
  unfold YearFromDay.
  set (y := 1970 + (400 * d) / 146097) in *.
  destruct (Z.ltb_spec d (DayFromYear y)).
  - replace (y - 1 + 1) with y by lia. lia.
  - destruct (Z.leb_spec (DayFromYear (y + 1)) d).
    + replace (y + 1 + 1) with (y + 2) by lia. lia.
    + lia.
Qed.

Lemma YearFromDay_unique (y d : Z) :
  DayFromYear y <= d < DayFromYear (y + 1) -> YearFromDay d = y.
Proof.
  intros H. pose proof (YearFromDay_bounds d) as Hb.
  set (r := YearFromDay d) in *.
  destruct (Z.lt_trichotomy r y) as [Hlt | [Heq | Hgt]]; [| assumption |].
  - pose proof (DayFromYear_le (r + 1) y). lia.
  - pose proof (DayFromYear_le (y + 1) r). lia.
Qed.

(** [YearFromTime t] is the largest year that begins at or before [t], as
    ECMA-262 defines it. *)
Lemma YearFromTime_largest (t : Z) :
  TimeFromYear (YearFromTime t) <= t
  /\ forall y, TimeFromYear y <= t -> y <= YearFromTime t.
Proof.
  unfold TimeFromYear, YearFromTime.
  pose proof (YearFromDay_bounds (Day t)) as [Hlo Hhi].
  set (r := YearFromDay (Day t)) in *.
  assert (Hday : forall k, msPerDay * k <= t <-> k <= Day t).
  { intros k. unfold Day, msPerDay. split; intros Hk;
      Z.div_mod_to_equations; lia. }
  split.
  - now apply Hday.
  - intros y Hy. apply Hday in Hy.
    destruct (Z.le_gt_cases y r) as [Hle | Hgt]; [assumption |].
    pose proof (DayFromYear_le (r + 1) y). lia.
Qed.

Lemma month_cases (m : Z) :
  0 <= m <= 11 ->
  m = 0 \/ m = 1 \/ m = 2 \/ m = 3 \/ m = 4 \/ m = 5 \/ m = 6 \/ m = 7
  \/ m = 8 \/ m = 9 \/ m = 10 \/ m = 11.
Proof. lia. Qed.

Ltac month_split H :=
  destruct (month_cases _ H)
    as [-> | [-> | [-> | [-> | [-> | [-> | [-> | [-> | [-> | [-> | [-> | ->
       ]]]]]]]]]]].

Ltac decide_ltb :=
  repeat match goal with
         | |- context [?a <? ?b] => destruct (Z.ltb_spec a b); try lia
         end.

(** The month table and the date table, on the day within the year
    ([leap] is 0 or 1). *)
Lemma month_table (leap m dt : Z) :
  leap = 0 \/ leap = 1 ->
  0 <= m <= 11 ->
  1 <= dt <= match m with
             | 1 => 28 + leap
             | 3 | 5 | 8 | 10 => 30
             | _ => 31
             end ->
  let d := DayOfMonthStart m leap + dt - 1 in
  0 <= d < 365 + leap
  /\ (if d <? 31 then 0
      else if d <? 59 + leap then 1
      else if d <? 90 + leap then 2
      else if d <? 120 + leap then 3
      else if d <? 151 + leap then 4
      else if d <? 181 + leap then 5
      else if d <? 212 + leap then 6
      else if d <? 243 + leap then 7
      else if d <? 273 + leap then 8
      else if d <? 304 + leap then 9
      else if d <? 334 + leap then 10
      else 11) = m
  /\ match m with
     | 0 => d + 1
     | 1 => d - 30
     | 2 => d - 58 - leap
     | 3 => d - 89 - leap
     | 4 => d - 119 - leap
     | 5 => d - 150 - leap
     | 6 => d - 180 - leap
     | 7 => d - 211 - leap
     | 8 => d - 242 - leap
     | 9 => d - 272 - leap
     | 10 => d - 303 - leap
     | _ => d - 333 - leap
     end = dt.
Proof.
  intros Hleap Hm Hdt d. subst d.
  month_split Hm; cbv [DayOfMonthStart] in *;
    (split; [lia |]); (split; [decide_ltb; reflexivity | lia]).
Qed.

Lemma leap_cases (y : Z) :
  (if DaysInYear y =? 366 then 1 else 0) = 0 /\ DaysInYear y = 365
  \/ (if DaysInYear y =? 366 then 1 else 0) = 1 /\ DaysInYear y = 366.
Proof. destruct (DaysInYear_cases y) as [E | E]; rewrite E; auto. Qed.

(** The day number [MakeDay] returns for a date inside its month lies in
    the year asked for. *)
Lemma MakeDay_in_year (y m dt : Z) :
  0 <= m <= 11 -> 1 <= dt <= DaysInMonth y m ->
  MakeDay y m dt
  = DayFromYear y
    + (DayOfMonthStart m (if DaysInYear y =? 366 then 1 else 0) + dt - 1)
  /\ DayFromYear y <= MakeDay y m dt < DayFromYear (y + 1).
Proof.
  intros Hm Hdt. unfold MakeDay.
  rewrite Z.div_small, Z.mod_small, Z.add_0_r by lia.
  rewrite DayFromYear_succ. unfold DaysInMonth in Hdt.
  set (leap := if DaysInYear y =? 366 then 1 else 0) in *.
  assert (Hl : leap = 0 \/ leap = 1)
    by (destruct (leap_cases y) as [[E _] | [E _]]; auto).
  destruct (month_table leap m dt Hl Hm Hdt) as [Hd _].
  assert (DaysInYear y = 365 + leap).
  { subst leap. destruct (leap_cases y) as [[E E'] | [E E']]; rewrite E, E';
      reflexivity. }
  lia.
Qed.

Lemma Day_MakeDate (d tod : Z) :
  0 <= tod < msPerDay -> Day (MakeDate d tod) = d.
Proof.
  unfold Day, MakeDate, msPerDay. intros H. Z.div_mod_to_equations. lia.
Qed.

Lemma MakeTime_range (h mi s : Z) :
  0 <= h < 24 -> 0 <= mi < 60 -> 0 <= s < 60 ->
  0 <= MakeTime h mi s 0 < msPerDay.
Proof. unfold MakeTime, msPerHour, msPerMinute, msPerSecond, msPerDay. lia. Qed.

(** The calendar fields of a time value built from a date inside its month
    and a time of day inside the day are the ones it was built from. *)
Lemma calendar_round_trip (y m dt h mi s : Z) :
  0 <= m <= 11 -> 1 <= dt <= DaysInMonth y m ->
  0 <= h < 24 -> 0 <= mi < 60 -> 0 <= s < 60 ->
  let t := MakeDate (MakeDay y m dt) (MakeTime h mi s 0) in
  YearFromTime t = y /\ MonthFromTime t = m /\ DateFromTime t = dt
  /\ HourFromTime t = h /\ MinFromTime t = mi /\ SecFromTime t = s.
Proof.
  intros Hm Hdt Hh Hmi Hs t.
  pose proof (MakeTime_range h mi s Hh Hmi Hs) as Htod.
  destruct (MakeDay_in_year y m dt Hm Hdt) as [Hmk Hday].
  assert (HD : Day t = MakeDay y m dt) by now apply Day_MakeDate.
  assert (HY : YearFromTime t = y).
  { unfold YearFromTime. rewrite HD. now apply YearFromDay_unique. }
  assert (HW : DayWithinYear t
               = DayOfMonthStart m (if DaysInYear y =? 366 then 1 else 0)
                 + dt - 1).
  { unfold DayWithinYear. rewrite HD, HY, Hmk. lia. }
  unfold DaysInMonth in Hdt.
  assert (Hl : (if DaysInYear y =? 366 then 1 else 0) = 0
               \/ (if DaysInYear y =? 366 then 1 else 0) = 1)
    by (destruct (leap_cases y) as [[E _] | [E _]]; auto).
  destruct (month_table _ m dt Hl Hm Hdt) as [_ [HMt HDt]]. cbv zeta in HMt, HDt.
  assert (HM : MonthFromTime t = m).
  { unfold MonthFromTime, InLeapYear. rewrite HW, HY. exact HMt. }
  split; [exact HY |]. split; [exact HM |]. split.
  { unfold DateFromTime, InLeapYear. rewrite HM, HW, HY. exact HDt. }
  subst t. clear - Hh Hmi Hs.
  unfold HourFromTime, MinFromTime, SecFromTime, MakeDate, MakeTime,
    msPerHour, msPerMinute, msPerSecond, msPerDay.
  generalize (MakeDay y m dt). intros D.
  repeat split; Z.div_mod_to_equations; lia.
Qed.

Lemma WeekDay_range (t : Z) : 0 <= WeekDay t <= 6.
Proof. unfold WeekDay. pose proof (Z.mod_pos_bound (Day t + 4) 7). lia. Qed.

(** A date of a four-digit year is far inside the range of time values,
    in a zone whose offsets stay within a day. *)
Lemma newDate_valid (y m dt h mi s : Z) :
  boundedOffsets LocalTZA ->
  100 <= y <= 9999 -> 0 <= m <= 11 -> 1 <= dt <= DaysInMonth y m ->
  0 <= h < 24 -> 0 <= mi < 60 -> 0 <= s < 60 ->
  newDate LocalTZA (Some y) (Some m) (Some dt) (Some h) (Some mi) (Some s)
  = Some (UTC LocalTZA (MakeDate (MakeDay y m dt) (MakeTime h mi s 0))).
Proof.
  intros Hz Hy Hm Hdt Hh Hmi Hs. unfold newDate.
  replace ((0 <=? y) && (y <=? 99))%bool with false
    by (symmetry; apply andb_false_iff; right; apply Z.leb_gt; lia).
  unfold TimeClip, UTC.
  pose proof (MakeTime_range h mi s Hh Hmi Hs) as Htod.
  destruct (MakeDay_in_year y m dt Hm Hdt) as [_ Hday].
  pose proof (DayFromYear_le 100 y) as Hlo.
  pose proof (DayFromYear_le (y + 1) 10000) as Hhi.
  assert (E1 : DayFromYear 100 = -683003) by reflexivity.
  assert (E2 : DayFromYear 10000 = 2932897) by reflexivity.
  set (t := MakeDate (MakeDay y m dt) (MakeTime h mi s 0)).
  pose proof (Hz t false) as Hoff.
  destruct (Z.ltb_spec 8640000000000000 (Z.abs (t - LocalTZA t false)));
    [|reflexivity].
  subst t. unfold MakeDate, msPerDay in *. lia.
Qed.

End Calendar.

(** ** Timestamps of transactions *)

Lemma buildDate_parsedFields (d t : string) (f : CalendarFields) :
  parsedFields d t = Some f ->
  buildDate d t
  = newDate LocalTZA
            (Some (cf_year f)) (Some (cf_month f - 1)%Z) (Some (cf_day f))
            (Some (cf_hour f)) (Some (cf_minute f)) (Some (cf_second f)).
Proof.
  unfold parsedFields, buildDate.
  destruct (parseIntOpt (nth_error (split "/" d) 0)); [|discriminate].
  destruct (parseIntOpt (nth_error (split "/" d) 1)); [|discriminate].
  destruct (parseIntOpt (nth_error (split "/" d) 2)); [|discriminate].
  destruct (parseInt (orZero (nth_error _ 0))); [|discriminate].
  destruct (parseInt (orZero (nth_error _ 1))); [|discriminate].
  destruct (parseInt (orZero (nth_error _ 2))); [|discriminate].
  intros H. injection H as <-. reflexivity.
Qed.

(** A zone that never changes its offset skips no local time. *)
Lemma fixedOffset_notSkipped (offset t : Z) : notSkipped (fixedOffset offset) t.
Proof. unfold notSkipped, LocalTime, UTC, fixedOffset. lia. Qed.

Lemma fixedOffset_bounded (offset : Z) :
  (Z.abs offset <= msPerDay)%Z -> boundedOffsets (fixedOffset offset).
Proof. intros H t isUTC. exact H. Qed.

(** The instant the zone gives for a local time it does not skip reads back
    as that local time, so the getters return the fields it was built
    from. *)
Lemma timestampFields_valid (f : CalendarFields) :
  validCalendar f ->
  boundedOffsets LocalTZA ->
  notSkipped LocalTZA (localTimeValue f) ->
  timestampFields
    (newDate LocalTZA
             (Some (cf_year f)) (Some (cf_month f - 1)%Z) (Some (cf_day f))
             (Some (cf_hour f)) (Some (cf_minute f)) (Some (cf_second f)))
  = Some f.
Proof.
  intros [Hy [Hm [Hd [Hh [Hmi Hs]]]]] Hz Hskip.
  rewrite newDate_valid by (try assumption; lia).
  destruct (calendar_round_trip (cf_year f) (cf_month f - 1) (cf_day f)
              (cf_hour f) (cf_minute f) (cf_second f))
    as [E1 [E2 [E3 [E4 [E5 E6]]]]]; try assumption; try lia.
  unfold timestampFields, getDate, getMonth, getFullYear, getHours,
    getMinutes, getSeconds, getter.
  unfold notSkipped, localTimeValue in Hskip. rewrite Hskip.
  rewrite E1, E2, E3, E4, E5, E6.
  replace (cf_month f - 1 + 1)%Z with (cf_month f) by lia.
  now destruct f.
Qed.

(** C5, as the code has it: on a host whose zone keeps its offsets within a
    day, for every transaction [parseCSV] emits whose raw date and raw time
    parse (day/month/year, 24h clock) to a date of the calendar with a year
    from 0100 to 9999 and to a time of day, and whose local time the zone
    does not skip at a transition, the calendar fields of the constructed
    timestamp, read in the local time of the host, are the parsed day,
    month, year, hour, minute and second, the month going from 1-based to
    0-based inside the constructor. *)
Theorem timestamp_round_trip_on_calendar_dates :
  forall csvText : string,
    exists r,
      parseCSV csvText = Ok r
      /\ forall tx f,
           In tx (transactions r) ->
           parsedFields (rawDate tx) (rawTime tx) = Some f ->
           validCalendar f ->
           boundedOffsets LocalTZA ->
           notSkipped LocalTZA (localTimeValue f) ->
           timestampFields (date tx) = Some f.
Proof.
  intros csvText. rewrite parseCSV_eq. eexists. split; [reflexivity |].
  intros tx f Hin Hp Hv Hz Hskip.
  pose proof (parseResult_builtFromRow csvText) as H.
  rewrite Forall_forall in H. destruct (H tx Hin) as [_ [Hd _]].
  rewrite Hd, (buildDate_parsedFields _ _ _ Hp).
  now apply timestampFields_valid.
Qed.

(** C6 on the code: a row whose time is not numeric is accepted, its
    timestamp is an Invalid Date, and its [dayOfWeek] is NaN, not an integer
    from 0 to 6; for every transaction, [dayOfWeek] is in that range exactly
    when the timestamp is valid. *)
Theorem dayOfWeek_NaN_on_non_numeric_time :
  (exists r tx,
      parseCSV sampleNonNumericTime = Ok r
      /\ transactions r = [tx]
      /\ rawDate tx = "05/03/2024"
      /\ rawTime tx = "ab:cd:ef"
      /\ date tx = None
      /\ dayOfWeek tx = None)
  /\ forall csvText : string,
      exists r,
        parseCSV csvText = Ok r
        /\ forall tx, In tx (transactions r) ->
             match dayOfWeek tx with
             | Some d => (0 <= d <= 6)%Z
             | None => date tx = None
             end.
Proof.
  split.
  - eexists. eexists. split; [vm_compute; reflexivity |]. repeat split.
  - intros csvText. rewrite parseCSV_eq. eexists. split; [reflexivity |].
    intros tx Hin.
    pose proof (parseResult_builtFromRow csvText) as H.
    rewrite Forall_forall in H. destruct (H tx Hin) as [_ [_ [Hw _]]].
    rewrite Hw. unfold getDay, getter.
    destruct (date tx); [apply WeekDay_range | reflexivity].
Qed.

(** * Further properties of the module *)

(** ** The CSV line splitter *)

Section SplitCsvLine.

Lemma splitCsvLine_nonempty (line : string) : splitCsvLine line <> [].
Proof.
  destruct line as [|c r]; simpl; [discriminate |].
  destruct (_ && _); [discriminate |].
  destruct (splitCsvLine r); discriminate.
Qed.

Lemma concat_cons_char (c : ascii) (h : string) (t : list string) :
  String.concat "," (String c h :: t) = String c (String.concat "," (h :: t)).
Proof. destruct t; reflexivity. Qed.

Lemma even_add_even (n m : nat) :
  Nat.even m = true -> Nat.even (n + m) = Nat.even n.
Proof. intros H. rewrite Nat.even_add, H. now destruct (Nat.even n). Qed.

(** Cutting a line at a comma behind which the double quotes are even in
    number cuts its columns in two lists. *)
Lemma splitCsvLine_append_comma (a b : string) :
  Nat.even (countQuotes b) = true ->
  splitCsvLine (a ++ String "," b) = splitCsvLine a ++ splitCsvLine b.
Proof.
  intros Hb. induction a as [|c a IH]; cbn [append splitCsvLine].
  - rewrite Ascii.eqb_refl, Hb. reflexivity.
  - rewrite countQuotes_append. cbn [countQuotes].
    replace (Ascii.eqb "," DQUOTE) with false by reflexivity.
    rewrite (even_add_even _ _ Hb), IH.
    destruct (Ascii.eqb c "," && Nat.even (countQuotes a)); [reflexivity |].
    destruct (splitCsvLine a) as [|h t] eqn:E;
      [now apply splitCsvLine_nonempty in E | reflexivity].
Qed.

Lemma splitCsvLine_closing_quote (inner : string) :
  occurs DQUOTE inner = false ->
  splitCsvLine (inner ++ String DQUOTE "") = [(inner ++ String DQUOTE "")%string].
Proof.
  intros H. induction inner as [|c inner IH]; [reflexivity |].
  simpl in H. apply orb_false_iff in H. destruct H as [_ H].
  cbn [append splitCsvLine]. rewrite countQuotes_append.
  apply countQuotes_zero in H. rewrite H. cbn [countQuotes].
  rewrite Ascii.eqb_refl. cbn [Nat.add Nat.even]. rewrite andb_false_r.
  apply countQuotes_zero in H. now rewrite (IH H).
Qed.

End SplitCsvLine.

(** X1: joining the columns of a line with commas gives the line back;
    nothing of the line is lost or changed by the split. *)
Theorem splitCsvLine_join_round_trip :
  forall line : string, String.concat "," (splitCsvLine line) = line.
Proof.
  induction line as [|c r IH]; [reflexivity |].
  cbn [splitCsvLine].
  destruct (Ascii.eqb c "," && Nat.even (countQuotes r)) eqn:E.
  - apply andb_true_iff in E. destruct E as [E _].
    apply Ascii.eqb_eq in E. subst c.
    destruct (splitCsvLine r) as [|h t] eqn:Er;
      [now apply splitCsvLine_nonempty in Er |].
    cbn [String.concat]. rewrite <- IH. reflexivity.
  - destruct (splitCsvLine r) as [|h t] eqn:Er;
      [now apply splitCsvLine_nonempty in Er |].
    rewrite concat_cons_char. now rewrite IH.
Qed.

(** X2: a field between double quotes, itself free of double quotes, comes
    out as one column with its commas, whenever the double quotes behind it
    are even in number; the columns before and after it are those of the
    two sides of the line. *)
Theorem splitCsvLine_keeps_quoted_field :
  forall a inner b : string,
    occurs DQUOTE inner = false ->
    Nat.even (countQuotes b) = true ->
    splitCsvLine (a ++ String "," (quoted inner ++ String "," b))
    = splitCsvLine a ++ quoted inner :: splitCsvLine b.
Proof.
  intros a inner b Hi Hb.
  assert (Hq : countQuotes (quoted inner) = 2).
  { unfold quoted. cbn [append countQuotes]. rewrite Ascii.eqb_refl.
    rewrite countQuotes_append. apply countQuotes_zero in Hi. now rewrite Hi. }
  rewrite splitCsvLine_append_comma.
  - rewrite splitCsvLine_append_comma by assumption. f_equal.
    unfold quoted. cbn [append splitCsvLine].
    replace (Ascii.eqb DQUOTE ",") with false by reflexivity. cbn [andb].
    now rewrite splitCsvLine_closing_quote.
  - rewrite countQuotes_append, Hq. cbn [countQuotes].
    replace (Ascii.eqb "," DQUOTE) with false by reflexivity. exact Hb.
Qed.

Lemma splitCsvLine_keeps_quoted_field_witness :
  splitCsvLine ("Pix," ++ quoted "25,50" ++ ",01/03/2024")
  = ["Pix"; quoted "25,50"; "01/03/2024"].
Proof.
  exact (splitCsvLine_keeps_quoted_field "Pix" "25,50" "01/03/2024"
           eq_refl eq_refl).
Defined.

(** X3: on a line without double quotes the split is the plain split at
    every comma. *)
Theorem splitCsvLine_unquoted_is_comma_split :
  forall line : string,
    occurs DQUOTE line = false ->
    splitCsvLine line = split "," line.
Proof.
  induction line as [|c r IH]; [reflexivity |].
  intros H. simpl in H. apply orb_false_iff in H. destruct H as [_ H].
  cbn [splitCsvLine split]. rewrite (IH H).
  apply countQuotes_zero in H. rewrite H. cbn [Nat.even].
  now rewrite andb_true_r.
Qed.

Lemma splitCsvLine_unquoted_is_comma_split_witness :
  splitCsvLine "a,,b c," = ["a"; ""; "b c"; ""].
Proof.
  exact (splitCsvLine_unquoted_is_comma_split "a,,b c," eq_refl).
Defined.

(** ** The format detector and the period extractor *)

Section Scans.

Lemma firstFormat_first (pre post : list string) (l : string) (f : CsvFormat.t) :
  (forall x, In x pre -> lineFormat x = None) ->
  lineFormat l = Some f ->
  firstFormat (pre ++ l :: post) = f.
Proof.
  intros Hpre Hl. induction pre as [|x pre IH]; simpl.
  - now rewrite Hl.
  - rewrite (Hpre x) by now left. apply IH. intros y Hy. apply Hpre. now right.
Qed.

Lemma firstFormat_unknown_iff (ls : list string) :
  firstFormat ls = CsvFormat.UNKNOWN <-> forall x, In x ls -> lineFormat x = None.
Proof.
  induction ls as [|l r IH]; simpl.
  - split; [intros _ x [] | reflexivity].
  - destruct (lineFormat l) as [f|] eqn:E.
    + split.
      * intros ->. unfold lineFormat in E.
        destruct (_ && _); [discriminate |]. destruct (_ && _); discriminate.
      * intros H. specialize (H l (or_introl eq_refl)). congruence.
    + rewrite IH. split.
      * intros H x [<- | Hx]; auto.
      * intros H x Hx. apply H. now right.
Qed.

Lemma firstn_app_short {A : Type} (n : nat) (pre : list A) (x : A)
    (post : list A) :
  List.length pre < n ->
  exists rest, firstn n (pre ++ x :: post) = pre ++ x :: rest.
Proof.
  revert n; induction pre as [|y pre IH]; intros n H; simpl in *.
  - destruct n as [|n]; [lia |]. simpl. now eexists.
  - destruct n as [|n]; [lia |]. simpl.
    destruct (IH n) as [rest E]; [lia |]. rewrite E. now eexists.
Qed.

Lemma firstn_app_long {A : Type} (n : nat) (pre post : list A) :
  n <= List.length pre -> firstn n (pre ++ post) = firstn n pre.
Proof.
  intros H. rewrite firstn_app.
  replace (n - List.length pre) with 0 by lia. simpl. apply app_nil_r.
Qed.

Lemma startsWith_head_of_split (p s : string) :
  occurs "," p = false ->
  startsWith s p = true ->
  startsWith (hd "" (split "," s)) p = true.
Proof.
  revert s; induction p as [|a p IH]; intros s Hp Hs.
  - apply startsWith_empty.
  - destruct s as [|b s]; [discriminate |].
    simpl in Hp. apply orb_false_iff in Hp. destruct Hp as [Ha Hp].
    simpl in Hs. apply andb_true_iff in Hs. destruct Hs as [Hab Hs].
    apply Ascii.eqb_eq in Hab. subst b.
    cbn [split]. rewrite Ha.
    specialize (IH s Hp Hs).
    destruct (split "," s) as [|h t]; simpl in *.
    + rewrite Ascii.eqb_refl. now destruct p.
    + now rewrite Ascii.eqb_refl.
Qed.

Lemma includes_cons (c : ascii) (s p : string) :
  includes s p = true -> includes (String c s) p = true.
Proof. intros H. cbn [includes]. rewrite H. apply orb_true_r. Qed.

Lemma includes_startsWith (s p : string) :
  startsWith s p = true -> includes s p = true.
Proof. intros H. destruct s; cbn [includes]; now rewrite H. Qed.

(** A text without comma that occurs in a line occurs in one of the parts
    the line is cut into at its commas. *)
Lemma includes_in_part (p s : string) :
  occurs "," p = false ->
  includes s p = true ->
  existsb (fun part => includes part p) (split "," s) = true.
Proof.
  intros Hp. induction s as [|c s IH]; intros H.
  - cbn [split existsb]. now rewrite H.
  - cbn [includes] in H. apply orb_true_iff in H.
    cbn [split]. destruct (Ascii.eqb c ",") eqn:Ec.
    + cbn [existsb]. destruct H as [H | H].
      * destruct p as [|a p]; [reflexivity |].
        simpl in H. apply andb_true_iff in H. destruct H as [H _].
        apply Ascii.eqb_eq in H. subst a. apply Ascii.eqb_eq in Ec. subst c.
        simpl in Hp. discriminate Hp.
      * rewrite (IH H). apply orb_true_r.
    + destruct H as [H | H].
      * pose proof (startsWith_head_of_split p (String c s) Hp H) as Hh.
        cbn [split] in Hh. rewrite Ec in Hh.
        destruct (split "," s) as [|h t]; cbn [hd existsb] in *;
          now rewrite (includes_startsWith _ _ Hh).
      * specialize (IH H).
        destruct (split "," s) as [|h t]; [discriminate |].
        cbn [existsb] in *. apply orb_true_iff in IH.
        destruct IH as [IH | IH].
        -- now rewrite (includes_cons c _ _ IH).
        -- rewrite IH. apply orb_true_r.
Qed.

Lemma find_existsb {A : Type} (f : A -> bool) (l : list A) :
  existsb f l = true -> exists x, find f l = Some x /\ f x = true.
Proof.
  induction l as [|y l IH]; simpl; [discriminate |].
  destruct (f y) eqn:E; [now exists y |]. exact IH.
Qed.

Lemma linePeriod_announced (l : string) :
  includes l "Vendas de" = true ->
  exists part,
    find (fun p => includes p "Vendas de") (split "," l) = Some part
    /\ includes part "Vendas de" = true
    /\ linePeriod l = Some (cleanPeriod part).
Proof.
  intros H. unfold linePeriod. rewrite H.
  destruct (find_existsb _ _ (includes_in_part "Vendas de" l eq_refl H))
    as [part [Hf Hp]].
  exists part. rewrite Hf. repeat split; try assumption.
  now rewrite (truthy_includes part "Vendas de" eq_refl Hp).
Qed.

Lemma firstPeriod_first (pre post : list string) (l : string) (p : string) :
  (forall x, In x pre -> includes x "Vendas de" = false) ->
  linePeriod l = Some p ->
  firstPeriod (pre ++ l :: post) = p.
Proof.
  intros Hpre Hl. induction pre as [|x pre IH]; simpl.
  - now rewrite Hl.
  - unfold linePeriod at 1. rewrite (Hpre x) by now left.
    apply IH. intros y Hy. apply Hpre. now right.
Qed.

End Scans.

(** X4: [detectFormat] answers with the layout of the first line, among the
    first 5000, that carries a signature, the self-service signature being
    looked for first on each line; it answers UNKNOWN exactly when none of
    those lines carries a signature. *)
Theorem detectFormat_first_signature_wins :
  forall lines : list string,
    (detectFormat lines = Ok CsvFormat.UNKNOWN <->
     forall x, In x (firstn 5000 lines) -> lineFormat x = None)
    /\ forall (pre post : list string) (l : string) (f : CsvFormat.t),
         lines = pre ++ l :: post ->
         List.length pre < 5000 ->
         (forall x, In x pre -> lineFormat x = None) ->
         lineFormat l = Some f ->
         detectFormat lines = Ok f.
Proof.
  intros lines. rewrite detectFormat_eq. split.
  - rewrite <- firstFormat_unknown_iff. split; congruence.
  - intros pre post l f -> Hlen Hpre Hl.
    destruct (firstn_app_short 5000 pre l post Hlen) as [rest E].
    rewrite E. f_equal. now apply firstFormat_first.
Qed.

Lemma detectFormat_first_signature_wins_witness :
  detectFormat
    ["Relatorio"; "x,Nome Terminal,Venda (R$),Data";
     "Produtos,Total Venda,Data"]
  = Ok CsvFormat.ATTENDANT.
Proof.
  apply (proj2 (detectFormat_first_signature_wins
                  ["Relatorio"; "x,Nome Terminal,Venda (R$),Data";
                   "Produtos,Total Venda,Data"])
           ["Relatorio"] ["Produtos,Total Venda,Data"]
           "x,Nome Terminal,Venda (R$),Data").
  - reflexivity.
  - simpl. lia.
  - intros x [<- | []]. reflexivity.
  - reflexivity.
Defined.

(** X5: the lines after the 5000th have no influence on the detected layout
    nor on the extracted period. *)
Theorem scans_stop_after_5000_lines :
  forall pre post : list string,
    5000 <= List.length pre ->
    detectFormat (pre ++ post) = detectFormat pre
    /\ extractPeriod (pre ++ post) = extractPeriod pre.
Proof.
  intros pre post H.
  rewrite !detectFormat_eq, !extractPeriod_eq.
  now rewrite (firstn_app_long 5000 pre post H).
Qed.

Lemma scans_stop_after_5000_lines_witness :
  detectFormat (repeat "1,2,3" 5000 ++ ["Produtos,Total Venda,Data"])
  = Ok CsvFormat.UNKNOWN.
Proof.
  destruct (scans_stop_after_5000_lines (repeat "1,2,3" 5000)
              ["Produtos,Total Venda,Data"]) as [H _].
  - rewrite repeat_length. apply Nat.le_refl.
  - rewrite H. vm_compute. reflexivity.
Defined.

(** X6: the period comes from the first line, among the first 5000, that
    contains "Vendas de": that line always has a comma-separated part
    containing the words, the first such part is cleaned and returned, and
    no later line is consulted. *)
Theorem extractPeriod_first_announcing_line :
  forall (pre post : list string) (l : string),
    List.length pre < 5000 ->
    (forall x, In x pre -> includes x "Vendas de" = false) ->
    includes l "Vendas de" = true ->
    exists part,
      find (fun p => includes p "Vendas de") (split "," l) = Some part
      /\ includes part "Vendas de" = true
      /\ extractPeriod (pre ++ l :: post) = Ok (cleanPeriod part).
Proof.
  intros pre post l Hlen Hpre Hl.
  destruct (linePeriod_announced l Hl) as [part [Hf [Hp Hlp]]].
  exists part. split; [exact Hf |]. split; [exact Hp |].
  rewrite extractPeriod_eq.
  destruct (firstn_app_short 5000 pre l post Hlen) as [rest E].
  rewrite E. f_equal. now apply firstPeriod_first.
Qed.

Lemma extractPeriod_first_announcing_line_witness :
  extractPeriod
    ["Relatorio"; "x,'Vendas de 01/03/2024 ate 31/03/2024',Vendas de 2";
     "Vendas de 05/05/2025"]
  = Ok "01/03/2024 - 31/03/2024".
Proof.
  destruct (extractPeriod_first_announcing_line
              ["Relatorio"] ["Vendas de 05/05/2025"]
              "x,'Vendas de 01/03/2024 ate 31/03/2024',Vendas de 2")
    as [part [Hf [_ H]]].
  - simpl. lia.
  - intros x [<- | []]. reflexivity.
  - reflexivity.
  - vm_compute in Hf. injection Hf as <-. exact H.
Defined.

(** ** Line endings *)

Lemma splitLines_toCRLF (text : string) :
  occurs CR text = false -> splitLines (toCRLF text) = splitLines text.
Proof.
  induction text as [|c r IH]; [reflexivity |].
  intros H. simpl in H. apply orb_false_iff in H. destruct H as [Hc H].
  cbn [toCRLF splitLines]. destruct (Ascii.eqb c LF) eqn:E.
  - cbn [splitLines]. replace (Ascii.eqb CR LF) with false by reflexivity.
    rewrite Ascii.eqb_refl. cbn [startsWith]. rewrite Ascii.eqb_refl.
    rewrite startsWith_empty. cbn [andb]. cbn [splitLines].
    now rewrite IH.
  - cbn [splitLines]. rewrite E, Hc. cbn [andb]. now rewrite IH.
Qed.

(** X7: a text without carriage returns and the same text with every line
    feed written as carriage return and line feed give the same lines and
    the same parse: the two line endings are interchangeable. *)
Theorem crlf_and_lf_give_the_same_parse :
  forall text : string,
    occurs CR text = false ->
    splitLines (toCRLF text) = splitLines text
    /\ parseCSV (toCRLF text) = parseCSV text.
Proof.
  intros text H. pose proof (splitLines_toCRLF text H) as E.
  split; [exact E |]. apply parseCSV_cleanLines. unfold cleanLines.
  now rewrite E.
Qed.

(** ** The transactions, row by row *)

Section RowByRow.

Lemma commonProcessing_output (i : nat) (m a d t p : string)
    (st st0 : LoopState) :
  st_transactions st0 = [] ->
  st_transactions (commonProcessing i m a d t p st)
  = st_transactions st ++ st_transactions (commonProcessing i m a d t p st0).
Proof.
  intros H0. unfold commonProcessing.
  destruct (_ || _); [now rewrite H0, app_nil_r |].
  destruct (negb (_ =? 3)); [now rewrite H0, app_nil_r |].
  cbn [st_transactions]. now rewrite H0.
Qed.

Lemma rowStep_output (format : CsvFormat.t) (lines : list string) (i : nat)
    (l : string) (st : LoopState) :
  st_transactions (rowStep format lines i l st)
  = st_transactions st ++ rowOutput format lines i l.
Proof.
  unfold rowOutput, rowStep.
  destruct (startsWith (trim l) "Total"); [now rewrite app_nil_r |].
  destruct format; [| |now rewrite app_nil_r].
  - destruct (_ <? 12); [now rewrite app_nil_r |].
    exact (commonProcessing_output _ _ _ _ _ _ (setUnitName st _)
             (setUnitName {| st_unitName := defaultUnitName;
                             st_transactions := [] |} _) eq_refl).
  - destruct (attendantGate _); [|now rewrite app_nil_r].
    exact (commonProcessing_output _ _ _ _ _ _ (setUnitName st _)
             (setUnitName {| st_unitName := defaultUnitName;
                             st_transactions := [] |} _) eq_refl).
Qed.

Lemma rowsFrom_output (format : CsvFormat.t) (lines rows : list string)
    (i : nat) (st : LoopState) :
  st_transactions (rowsFrom format lines i rows st)
  = st_transactions st ++ rowsOutput format lines i rows.
Proof.
  revert i st; induction rows as [|l rows IH]; intros i st; simpl.
  - now rewrite app_nil_r.
  - now rewrite IH, rowStep_output, app_assoc.
Qed.

Lemma parseResult_transactions (csvText : string) :
  transactions (parseResult csvText)
  = rowsOutput (firstFormat (firstn 5000 (cleanLines csvText)))
      (cleanLines csvText) (startIndexOf (cleanLines csvText))
      (dataRows (cleanLines csvText)).
Proof. unfold parseResult. cbn [transactions]. now rewrite rowsFrom_output. Qed.

Lemma occurs_deleteAll_class (c : ascii) (cls : ascii -> bool) (s : string) :
  cls c = true -> occurs c (deleteAll cls s) = false.
Proof.
  intros Hc. induction s as [|x s IH]; simpl; [reflexivity |].
  destruct (cls x) eqn:E; [assumption |]. simpl. rewrite IH, orb_false_r.
  destruct (Ascii.eqb_spec x c) as [-> | _]; [congruence | reflexivity].
Qed.

Lemma field_noQuote (cols : list string) (k : nat) (dflt : string) :
  noQuote dflt -> noQuote (field cols k dflt).
Proof.
  intros Hd. unfold field. destruct (nth_error cols k) as [c|]; [|assumption].
  unfold orElse. destruct (truthy _); [|assumption].
  split; apply occurs_trim, occurs_deleteAll_class; reflexivity.
Qed.

Lemma field_truthy (cols : list string) (k : nat) (dflt : string) :
  truthy dflt = true -> truthy (field cols k dflt) = true.
Proof.
  intros Hd. unfold field. destruct (nth_error cols k) as [c|]; [|assumption].
  unfold orElse.
  destruct (truthy (trim (deleteAll isQuote c))) eqn:E; assumption.
Qed.

Lemma commonProcessing_clean (i : nat) (m a d t p : string) (st0 : LoopState) :
  st_transactions st0 = [] ->
  truthy t = true -> noQuote m -> noQuote d -> noQuote t -> noQuote p ->
  st_transactions (commonProcessing i m a d t p st0) = []
  \/ exists tx,
       st_transactions (commonProcessing i m a d t p st0) = [tx]
       /\ cleanTransaction i tx.
Proof.
  intros H0 Ht Hm Hd Hqt Hp. unfold commonProcessing.
  destruct (_ || _); [now left |].
  destruct (negb (_ =? 3)); [now left |].
  right. eexists. cbn [st_transactions]. rewrite H0. split; [reflexivity |].
  unfold cleanTransaction, hasRowIndex.
  cbn [id rawDate rawTime machine paymentMethod amount].
  repeat split; try assumption; try apply Hm; try apply Hd; try apply Hqt;
    try apply Hp.
  apply parseCurrency_not_NaN.
Qed.

Lemma rowOutput_cases (format : CsvFormat.t) (lines : list string) (i : nat)
    (l : string) :
  rowOutput format lines i l = []
  \/ exists tx, rowOutput format lines i l = [tx] /\ cleanTransaction i tx.
Proof.
  unfold rowOutput, rowStep.
  destruct (startsWith (trim l) "Total"); [now left |].
  destruct format; [| |now left].
  - destruct (_ <? 12); [now left |].
    apply commonProcessing_clean; try reflexivity;
      try (apply field_noQuote; split; reflexivity).
    now apply field_truthy.
  - destruct (attendantGate _); [|now left].
    apply commonProcessing_clean; try reflexivity;
      try (apply field_noQuote; split; reflexivity).
    now apply field_truthy.
Qed.

Lemma rowsOutput_clean (format : CsvFormat.t) (lines rows : list string)
    (i : nat) :
  Forall (fun tx => exists k,
              i <= k < i + List.length rows /\ cleanTransaction k tx)
         (rowsOutput format lines i rows).
Proof.
  revert i; induction rows as [|l rows IH]; intros i; simpl; [constructor |].
  apply Forall_app. split.
  - destruct (rowOutput_cases format lines i l) as [E | [tx [E Hc]]];
      rewrite E; constructor; [|constructor].
    exists i. split; [lia | assumption].
  - eapply Forall_impl; [|apply (IH (S i))].
    intros tx [k [Hk Hc]]. exists k. split; [lia | assumption].
Qed.

Lemma rowsOutput_length (format : CsvFormat.t) (lines rows : list string)
    (i : nat) :
  List.length (rowsOutput format lines i rows) <= List.length rows.
Proof.
  revert i; induction rows as [|l rows IH]; intros i; simpl; [lia |].
  rewrite length_app. specialize (IH (S i)).
  destruct (rowOutput_cases format lines i l) as [E | [tx [E _]]];
    rewrite E; simpl; lia.
Qed.

Lemma string_of_uint_no_dash (d : Decimal.uint) :
  occurs "-" (NilEmpty.string_of_uint d) = false.
Proof. induction d; simpl; auto. Qed.

Lemma indexToString_injective (a b : nat) :
  indexToString a = indexToString b -> a = b.
Proof.
  unfold indexToString. intros H.
  apply (f_equal NilEmpty.uint_of_string) in H.
  rewrite !NilEmpty.usu in H. injection H as H.
  apply (f_equal Nat.of_uint) in H.
  now rewrite !DecimalNat.Unsigned.of_to in H.
Qed.

Lemma dash_prefix_unique (a b x y : string) :
  occurs "-" a = false -> occurs "-" b = false ->
  (a ++ String "-" x)%string = (b ++ String "-" y)%string -> a = b.
Proof.
  revert b; induction a as [|c a IH]; intros b Ha Hb H.
  - destruct b as [|c b]; [reflexivity |].
    simpl in H. injection H as Hc _. subst c. simpl in Hb. discriminate Hb.
  - destruct b as [|c' b].
    + simpl in H. injection H as Hc _. subst c. simpl in Ha. discriminate Ha.
    + simpl in H. injection H as -> H.
      simpl in Ha, Hb. apply orb_false_iff in Ha, Hb.
      f_equal. now apply (IH b).
Qed.

Lemma hasRowIndex_injective (k k' : nat) (tx tx' : Transaction) :
  hasRowIndex k tx -> hasRowIndex k' tx' -> id tx = id tx' -> k = k'.
Proof.
  unfold hasRowIndex. intros H H' E. rewrite H, H' in E.
  apply indexToString_injective.
  apply (dash_prefix_unique _ _ _ _
           (string_of_uint_no_dash _) (string_of_uint_no_dash _) E).
Qed.

Lemma rowsOutput_NoDup (format : CsvFormat.t) (lines rows : list string)
    (i : nat) :
  NoDup (map id (rowsOutput format lines i rows)).
Proof.
  revert i; induction rows as [|l rows IH]; intros i; simpl; [constructor |].
  destruct (rowOutput_cases format lines i l) as [E | [tx [E [Hi _]]]];
    rewrite E; simpl; [apply IH |].
  constructor; [|apply IH].
  intros Hin. apply in_map_iff in Hin. destruct Hin as [tx' [Eid Hin']].
  pose proof (rowsOutput_clean format lines rows (S i)) as Hc.
  rewrite Forall_forall in Hc. destruct (Hc tx' Hin') as [k [Hk [Hk' _]]].
  pose proof (hasRowIndex_injective _ _ _ _ Hk' Hi Eid). lia.
Qed.

End RowByRow.

(** X8: the ids of the transactions of one parse are pairwise distinct: each
    begins with the index of its row, and a row gives at most one
    transaction. *)
Theorem transaction_ids_are_distinct :
  forall csvText : string,
    exists r,
      parseCSV csvText = Ok r /\ NoDup (map id (transactions r)).
Proof.
  intros csvText. rewrite parseCSV_eq. eexists. split; [reflexivity |].
  rewrite parseResult_transactions. apply rowsOutput_NoDup.
Qed.

(** X9: a parse gives at most one transaction per line that follows the
    header line (per kept line, when there is no header line); the header
    line and the lines before it give none. *)
Theorem at_most_one_transaction_per_data_row :
  forall csvText : string,
    exists r,
      parseCSV csvText = Ok r
      /\ List.length (transactions r)
         <= List.length (cleanLines csvText) - startIndexOf (cleanLines csvText)
      /\ (forall h, findHeader (cleanLines csvText) 0 = Some h ->
                    List.length (transactions r)
                    < List.length (cleanLines csvText) - h).
Proof.
  intros csvText. rewrite parseCSV_eq. eexists. split; [reflexivity |].
  rewrite parseResult_transactions.
  pose proof (rowsOutput_length
                (firstFormat (firstn 5000 (cleanLines csvText)))
                (cleanLines csvText) (dataRows (cleanLines csvText))
                (startIndexOf (cleanLines csvText))) as H.
  assert (Hlen : List.length (dataRows (cleanLines csvText))
                 = List.length (cleanLines csvText)
                   - startIndexOf (cleanLines csvText))
    by (rewrite <- skipn_startIndexOf; apply length_skipn).
  rewrite Hlen in H. split; [exact H |].
  intros h Hh. pose proof (findHeader_range _ _ _ Hh) as Hr.
  set (n := List.length (rowsOutput _ _ _ _)) in *. clearbody n.
  unfold startIndexOf in H. rewrite Hh in H. lia.
Qed.

(** X10: in every transaction of a parse the raw time is not empty, the
    amount is a number (never NaN), the raw date, the raw time, the machine
    name and the payment method hold no quote character, and the id is the
    index of a line after the header followed by the raw date, the raw time
    and the machine name, with dashes between them. *)
Theorem transactions_have_clean_fields :
  forall csvText : string,
    exists r,
      parseCSV csvText = Ok r
      /\ forall tx, In tx (transactions r) ->
           exists k,
             startIndexOf (cleanLines csvText) <= k
             /\ k < List.length (cleanLines csvText)
             /\ cleanTransaction k tx.
Proof.
  intros csvText. rewrite parseCSV_eq. eexists. split; [reflexivity |].
  rewrite parseResult_transactions. intros tx Hin.
  pose proof (rowsOutput_clean
                (firstFormat (firstn 5000 (cleanLines csvText)))
                (cleanLines csvText) (dataRows (cleanLines csvText))
                (startIndexOf (cleanLines csvText))) as H.
  rewrite Forall_forall in H. destruct (H tx Hin) as [k [Hk Hc]].
  exists k.
  assert (Hlen : List.length (dataRows (cleanLines csvText))
                 = List.length (cleanLines csvText)
                   - startIndexOf (cleanLines csvText))
    by (rewrite <- skipn_startIndexOf; apply length_skipn).
  rewrite Hlen in Hk.
  pose proof (startIndexOf_le (cleanLines csvText)).
  repeat split; try lia; apply Hc.
Qed.

(** ** The unit name of a SELF_SERVICE report *)

Section SelfServiceUnitName.

Lemma selfServiceName_default (lines : list string) :
  selfServiceName lines defaultUnitName
  = firstOperador (firstn 50 lines) defaultUnitName.
Proof.
  unfold selfServiceName. rewrite String.eqb_refl. cbn [andb].
  destruct lines as [|l lines]; reflexivity.
Qed.

Lemma selfServiceName_settled (lines : list string) (u : string) :
  u <> defaultUnitName -> selfServiceName lines u = u.
Proof.
  intros H. unfold selfServiceName.
  destruct (String.eqb_spec u defaultUnitName); [contradiction | reflexivity].
Qed.

Lemma rowStep_selfService_unitName (lines : list string) (i : nat)
    (l : string) (st : LoopState) :
  st_unitName (rowStep CsvFormat.SELF_SERVICE lines i l st)
  = if isSelfServiceRow l then selfServiceName lines (st_unitName st)
    else st_unitName st.
Proof.
  unfold rowStep, isSelfServiceRow.
  destruct (startsWith (trim l) "Total"); [reflexivity |]. cbn [negb andb].
  destruct (Nat.ltb_spec (List.length (splitCsvLine (trim l))) 12) as [H | H].
  - rewrite (proj2 (Nat.leb_gt 12 _)) by lia. reflexivity.
  - rewrite (proj2 (Nat.leb_le 12 _)) by lia.
    now rewrite commonProcessing_unitName.
Qed.

Lemma rowsFrom_selfService_unitName (lines rows : list string) (i : nat)
    (st : LoopState) :
  st_unitName (rowsFrom CsvFormat.SELF_SERVICE lines i rows st)
  = if String.eqb (st_unitName st) defaultUnitName
    then (if existsb isSelfServiceRow rows
          then firstOperador (firstn 50 lines) defaultUnitName
          else defaultUnitName)
    else st_unitName st.
Proof.
  revert i st; induction rows as [|l rows IH]; intros i st.
  - simpl. destruct (String.eqb_spec (st_unitName st) defaultUnitName) as [E|E];
      [now rewrite E | reflexivity].
  - cbn [rowsFrom existsb]. rewrite IH, rowStep_selfService_unitName.
    destruct (isSelfServiceRow l); cbn [orb]; [|reflexivity].
    destruct (String.eqb_spec (st_unitName st) defaultUnitName) as [E|E].
    + rewrite E, selfServiceName_default.
      destruct (String.eqb_spec
                  (firstOperador (firstn 50 lines) defaultUnitName)
                  defaultUnitName) as [E'|E']; [|reflexivity].
      rewrite E'. now destruct (existsb isSelfServiceRow rows).
    + rewrite (selfServiceName_settled _ _ E).
      destruct (String.eqb_spec (st_unitName st) defaultUnitName);
        [contradiction | reflexivity].
Qed.

End SelfServiceUnitName.

(** X11: when the detected layout is SELF_SERVICE, [metadata.unitName] is the
    cleaned second column of the first "Operador:" line, among the first 50
    lines, whose second column is not empty, provided some data row has at
    least 12 columns and is not a "Total" row; without such a row, or without
    such a line, it is "Unidade Desconhecida". *)
Theorem selfService_unitName_from_operador_line :
  forall csvText : string,
    detectFormat (cleanLines csvText) = Ok CsvFormat.SELF_SERVICE ->
    exists r,
      parseCSV csvText = Ok r
      /\ unitName (metadata r)
         = if existsb isSelfServiceRow (dataRows (cleanLines csvText))
           then firstOperador (firstn 50 (cleanLines csvText)) defaultUnitName
           else defaultUnitName.
Proof.
  intros csvText Hf. rewrite detectFormat_eq in Hf.
  assert (Ha : firstFormat (firstn 5000 (cleanLines csvText))
               = CsvFormat.SELF_SERVICE) by congruence.
  rewrite parseCSV_eq. eexists. split; [reflexivity |].
  unfold parseResult. rewrite Ha. cbn [metadata unitName].
  now rewrite rowsFrom_selfService_unitName.
Qed.

(** ** Numerals in currency texts *)

Section CurrencyTexts.

Lemma digit_char_facts (c : ascii) :
  isDigit c = true ->
  isWhiteSpace c = false /\ isQuote c = false /\ isDot c = false
  /\ isComma c = false /\ Ascii.eqb c "R" = false
  /\ Ascii.eqb "I" c = false /\ Ascii.eqb c "/" = false
  /\ spanSign (String c "") = (false, String c "").
Proof.
  destruct c as [[] [] [] [] [] [] [] []]; intros H; try discriminate H;
    repeat split.
Qed.

Lemma spanSign_digit (c : ascii) (r : string) :
  isDigit c = true -> spanSign (String c r) = (false, String c r).
Proof.
  intros H. destruct (digit_char_facts c H) as [_ [_ [_ [_ [_ [_ [_ E]]]]]]].
  destruct c as [[] [] [] [] [] [] [] []]; try discriminate H; reflexivity.
Qed.

Lemma allDigits_all (s : string) : allDigits s -> all isDigit s = true.
Proof.
  induction s as [|c s IH]; intros H; [reflexivity |].
  apply allDigits_inv in H. destruct H as [Hc Hs].
  simpl. now rewrite Hc, IH.
Qed.

Lemma deleteAll_none (cls : ascii -> bool) (s : string) :
  all (fun c => negb (cls c)) s = true -> deleteAll cls s = s.
Proof.
  induction s as [|c s IH]; simpl; [reflexivity |].
  intros H. apply andb_true_iff in H. destruct H as [Hc Hs].
  apply negb_true_iff in Hc. now rewrite Hc, IH.
Qed.

Lemma deleteAll_append (cls : ascii -> bool) (a b : string) :
  deleteAll cls (a ++ b) = (deleteAll cls a ++ deleteAll cls b)%string.
Proof.
  induction a as [|c a IH]; simpl; [reflexivity |].
  destruct (cls c); simpl; now rewrite IH.
Qed.

Lemma all_occurs (p : ascii -> bool) (c : ascii) (s : string) :
  all p s = true -> p c = false -> occurs c s = false.
Proof.
  intros Hs Hc. induction s as [|x s IH]; [reflexivity |].
  simpl in Hs. apply andb_true_iff in Hs. destruct Hs as [Hx Hs].
  simpl. rewrite (IH Hs), orb_false_r.
  destruct (Ascii.eqb_spec x c) as [-> | _]; [congruence | reflexivity].
Qed.

Lemma includes_absent_char (c : ascii) (s p : string) :
  occurs c s = false -> includes s (String c p) = false.
Proof.
  induction s as [|x s IH]; intros H; [reflexivity |].
  simpl in H. apply orb_false_iff in H. destruct H as [Hx Hs].
  cbn [includes startsWith]. rewrite (Ascii.eqb_sym c x), Hx. cbn [andb orb].
  now apply IH.
Qed.

Lemma replaceFirst_absent (s p r : string) :
  includes s p = false -> replaceFirst s p r = s.
Proof.
  induction s as [|c s IH]; cbn [includes replaceFirst]; intros H;
    apply orb_false_iff in H; destruct H as [H1 H2]; rewrite H1;
    [reflexivity | now rewrite IH].
Qed.

Lemma replaceFirst_first_char (c : ascii) (a b r : string) :
  occurs c a = false ->
  replaceFirst (a ++ String c b) (String c "") r = (a ++ r ++ b)%string.
Proof.
  induction a as [|x a IH]; intros H.
  - cbn [append replaceFirst startsWith]. rewrite Ascii.eqb_refl.
    now rewrite startsWith_empty.
  - simpl in H. apply orb_false_iff in H. destruct H as [Hx Ha].
    cbn [append replaceFirst startsWith].
    rewrite (Ascii.eqb_sym c x), Hx. cbn [andb]. now rewrite IH.
Qed.

Lemma trimStart_none (s : string) :
  all (fun c => negb (isWhiteSpace c)) s = true -> trimStart s = s.
Proof.
  destruct s as [|c s]; [reflexivity |]. simpl. intros H.
  apply andb_true_iff in H. destruct H as [H _].
  apply negb_true_iff in H. now rewrite H.
Qed.

Lemma trimEnd_none (s : string) :
  all (fun c => negb (isWhiteSpace c)) s = true -> trimEnd s = s.
Proof.
  induction s as [|c s IH]; [reflexivity |]. simpl. intros H.
  apply andb_true_iff in H. destruct H as [Hc Hs].
  apply negb_true_iff in Hc. rewrite (IH Hs), Hc. now destruct s.
Qed.

Lemma trim_none (s : string) :
  all (fun c => negb (isWhiteSpace c)) s = true -> trim s = s.
Proof.
  intros H. unfold trim. rewrite (trimStart_none s H). now apply trimEnd_none.
Qed.

Lemma spanDigits_append (a b : string) :
  all isDigit a = true ->
  match b with
  | EmptyString => True
  | String c _ => isDigit c = false
  end ->
  spanDigits (a ++ b) = (a, b).
Proof.
  intros Ha Hb. induction a as [|c a IH]; cbn [append].
  - destruct b as [|c b]; [reflexivity |]. simpl. now rewrite Hb.
  - simpl in Ha. apply andb_true_iff in Ha. destruct Ha as [Hc Ha].
    cbn [spanDigits]. now rewrite Hc, (IH Ha).
Qed.

(** [parseFloat] reads a plain numeral with a decimal point. *)
Lemma parseFloat_decimal (ip fp : string) :
  allDigits ip -> ip <> "" -> allDigits fp ->
  isNaN (parseFloat (ip ++ String "." fp)) = false.
Proof.
  intros Hip Hne Hfp.
  pose proof (allDigits_all _ Hip) as Aip.
  pose proof (allDigits_all _ Hfp) as Afp.
  destruct ip as [|c ip]; [contradiction |].
  apply allDigits_inv in Hip. destruct Hip as [Hc _].
  destruct (digit_char_facts c Hc) as [Hw [_ [_ [_ [_ [HI _]]]]]].
  unfold parseFloat. cbn [append trimStart]. rewrite Hw.
  rewrite (spanSign_digit c _ Hc).
  cbn [startsWith]. rewrite HI. cbn [andb].
  change (String c (ip ++ String "." fp))
    with (String c ip ++ String "." fp)%string.
  rewrite (spanDigits_append (String c ip) (String "." fp) Aip eq_refl).
  pose proof (spanDigits_append fp "" Afp I) as Ef.
  rewrite append_empty_r in Ef. rewrite Ef.
  cbn [append spanExponent]. reflexivity.
Qed.

Lemma cleanCurrency_plain (s : string) :
  all (fun c => isDigit c || isComma c || isDot c) s = true ->
  cleanCurrency s
  = replaceFirst
      (if includes s "." && includes s "," then deleteAll isDot s else s)
      "," ".".
Proof.
  intros H. unfold cleanCurrency.
  assert (Hq : deleteAll isQuote s = s).
  { apply deleteAll_none. eapply all_weaken; [|exact H].
    intros c Hc. destruct c as [[] [] [] [] [] [] [] []]; try discriminate Hc;
      reflexivity. }
  assert (HR : includes s "R$" = false).
  { apply includes_absent_char. eapply all_occurs; [exact H | reflexivity]. }
  assert (Ht : trim s = s).
  { apply trim_none. eapply all_weaken; [|exact H].
    intros c Hc. destruct c as [[] [] [] [] [] [] [] []]; try discriminate Hc;
      reflexivity. }
  now rewrite Hq, (replaceFirst_absent _ _ _ HR), Ht.
Qed.

Lemma all_digits_plain (s : string) :
  all isDigit s = true ->
  all (fun c => isDigit c || isComma c || isDot c) s = true.
Proof. apply all_weaken. intros c Hc. now rewrite Hc. Qed.

Lemma all_digitOrDot_plain (s : string) :
  all isDigitOrDot s = true ->
  all (fun c => isDigit c || isComma c || isDot c) s = true.
Proof.
  apply all_weaken. intros c Hc. unfold isDigitOrDot in Hc.
  apply orb_true_iff in Hc. destruct Hc as [Hc | Hc]; rewrite Hc;
    [reflexivity | now rewrite !orb_true_r].
Qed.

Lemma digits_no_comma (s : string) : all isDigit s = true -> occurs "," s = false.
Proof. intros H. eapply all_occurs; [exact H | reflexivity]. Qed.

Lemma digits_no_dot (s : string) : all isDigit s = true -> occurs "." s = false.
Proof. intros H. eapply all_occurs; [exact H | reflexivity]. Qed.

Lemma truthy_append_cons (a b : string) (c : ascii) :
  truthy (a ++ String c b) = true.
Proof. now destruct a. Qed.

End CurrencyTexts.

(** X12: in a plain numeral, digits then one mark then digits, the comma and
    the dot are both read as the decimal mark: either text is cleaned to the
    digits, a dot and the digits, [parseFloat] reads that text, and the
    amount is the number it returns, the same for the two marks. *)
Theorem parseCurrency_decimal_mark :
  forall ip fp : string,
    allDigits ip -> ip <> "" -> allDigits fp ->
    cleanCurrency (ip ++ String "," fp) = (ip ++ String "." fp)%string
    /\ cleanCurrency (ip ++ String "." fp) = (ip ++ String "." fp)%string
    /\ parseFloat (ip ++ String "." fp) <> NaN
    /\ parseCurrency (ip ++ String "," fp) = parseFloat (ip ++ String "." fp)
    /\ parseCurrency (ip ++ String "." fp) = parseFloat (ip ++ String "." fp).
Proof.
  intros ip fp Hip Hne Hfp.
  pose proof (allDigits_all _ Hip) as Aip.
  pose proof (allDigits_all _ Hfp) as Afp.
  assert (Hc : cleanCurrency (ip ++ String "," fp) = (ip ++ String "." fp)%string).
  { rewrite cleanCurrency_plain.
    - assert (Hd : includes (ip ++ String "," fp) "." = false).
      { apply includes_absent_char. rewrite occurs_append. simpl.
        now rewrite (digits_no_dot _ Aip), (digits_no_dot _ Afp). }
      rewrite Hd. cbn [andb].
      now rewrite (replaceFirst_first_char "," ip fp "." (digits_no_comma _ Aip)).
    - rewrite all_append. cbn [all].
      now rewrite (all_digits_plain _ Aip), (all_digits_plain _ Afp). }
  assert (Hd : cleanCurrency (ip ++ String "." fp) = (ip ++ String "." fp)%string).
  { rewrite cleanCurrency_plain.
    - assert (Hk : includes (ip ++ String "." fp) "," = false).
      { apply includes_absent_char. rewrite occurs_append. simpl.
        now rewrite (digits_no_comma _ Aip), (digits_no_comma _ Afp). }
      rewrite Hk, andb_false_r. now apply replaceFirst_absent.
    - rewrite all_append. cbn [all].
      rewrite (all_digits_plain _ Aip), (all_digits_plain _ Afp).
      now rewrite orb_true_r. }
  pose proof (parseFloat_decimal ip fp Hip Hne Hfp) as Hn.
  split; [exact Hc |]. split; [exact Hd |]. split.
  { intros E. rewrite E in Hn. discriminate Hn. }
  unfold parseCurrency. rewrite !truthy_append_cons. cbn [negb].
  rewrite Hc, Hd, Hn. now split.
Qed.

Lemma allDigits_literal (s : string) : all isDigit s = true -> allDigits s.
Proof.
  induction s as [|c s IH]; intros H.
  - intros x Hx. discriminate Hx.
  - simpl in H. apply andb_true_iff in H. destruct H as [Hc Hs].
    apply allDigits_cons; auto.
Qed.

Lemma parseCurrency_decimal_mark_witness :
  cleanCurrency "15,90" = "15.90"
  /\ parseCurrency "15,90" = parseCurrency "15.90".
Proof.
  destruct (parseCurrency_decimal_mark "15" "90") as [H1 [_ [_ [H3 H4]]]].
  - now apply allDigits_literal.
  - discriminate.
  - now apply allDigits_literal.
  - split; [exact H1 | exact (eq_trans H3 (eq_sym H4))].
Defined.

(** X13: when a numeral has a decimal comma, the dots before the comma are
    grouping marks and are ignored: the amount is that of the same text
    without them. *)
Theorem parseCurrency_ignores_grouping_dots :
  forall w fp : string,
    all isDigitOrDot w = true ->
    allDigits fp ->
    parseCurrency (w ++ String "," fp)
    = parseCurrency (deleteAll isDot w ++ String "," fp).
Proof.
  intros w fp Hw Hfp.
  pose proof (allDigits_all _ Hfp) as Afp.
  assert (Hfd : deleteAll isDot fp = fp).
  { apply deleteAll_none. eapply all_weaken; [|exact Afp].
    intros c Hc. destruct (digit_char_facts c Hc) as [_ [_ [E _]]].
    now rewrite E. }
  assert (Hwd : all isDigit (deleteAll isDot w) = true).
  { clear - Hw. induction w as [|c w IH]; [reflexivity |].
    simpl in Hw. apply andb_true_iff in Hw. destruct Hw as [Hc Hw].
    simpl. unfold isDigitOrDot in Hc.
    destruct (isDot c) eqn:E; [now apply IH |].
    rewrite orb_false_r in Hc. simpl. now rewrite Hc, IH. }
  assert (Hplain : all (fun c => isDigit c || isComma c || isDot c)
                     (w ++ String "," fp) = true).
  { rewrite all_append. cbn [all].
    now rewrite (all_digitOrDot_plain _ Hw), (all_digits_plain _ Afp). }
  assert (Hplain' : all (fun c => isDigit c || isComma c || isDot c)
                      (deleteAll isDot w ++ String "," fp) = true).
  { rewrite all_append. cbn [all].
    now rewrite (all_digits_plain _ Hwd), (all_digits_plain _ Afp). }
  assert (Hnodot : includes (deleteAll isDot w ++ String "," fp) "." = false).
  { apply includes_absent_char. rewrite occurs_append. simpl.
    now rewrite (digits_no_dot _ Hwd), (digits_no_dot _ Afp). }
  assert (Hdel : deleteAll isDot (w ++ String "," fp)
                 = (deleteAll isDot w ++ String "," fp)%string).
  { rewrite deleteAll_append. simpl. now rewrite Hfd. }
  assert (Hc : cleanCurrency (w ++ String "," fp)
               = cleanCurrency (deleteAll isDot w ++ String "," fp)).
  { rewrite (cleanCurrency_plain _ Hplain), (cleanCurrency_plain _ Hplain').
    rewrite Hnodot. cbn [andb].
    destruct (includes (w ++ String "," fp) ".") eqn:E; cbn [andb].
    - assert (Hk : includes (w ++ String "," fp) "," = true)
        by (apply includes_iff; now exists w, fp).
      now rewrite Hk, Hdel.
    - rewrite occurs_includes in E. rewrite occurs_append in E.
      apply orb_false_iff in E. destruct E as [E _].
      assert (Hw' : deleteAll isDot w = w).
      { clear - E. induction w as [|c w IH]; [reflexivity |].
        simpl in E. apply orb_false_iff in E. destruct E as [Ec E].
        cbn [deleteAll]. change (isDot c) with (Ascii.eqb c ".").
        rewrite Ec. now rewrite (IH E). }
      now rewrite Hw'. }
  unfold parseCurrency. rewrite !truthy_append_cons. cbn [negb].
  now rewrite Hc.
Qed.

Lemma parseCurrency_ignores_grouping_dots_witness :
  parseCurrency "1.234.567,89" = parseCurrency "1234567,89".
Proof.
  apply (parseCurrency_ignores_grouping_dots "1.234.567" "89").
  - reflexivity.
  - now apply allDigits_literal.
Defined.

(** X14: double quotes around an amount, and a leading "R$ " before a text
    without dollar sign, do not change the amount. *)
Theorem parseCurrency_ignores_decoration :
  forall s : string,
    parseCurrency (quoted s) = parseCurrency s
    /\ (occurs "$" s = false -> parseCurrency ("R$ " ++ s) = parseCurrency s).
Proof.
  intros s. split.
  - destruct s as [|c s]; [reflexivity |].
    unfold parseCurrency, cleanCurrency, quoted. cbn [append truthy negb].
    assert (E : deleteAll isQuote (String DQUOTE (String c s ++ String DQUOTE ""))
                = deleteAll isQuote (String c s)).
    { cbn [deleteAll]. replace (isQuote DQUOTE) with true by reflexivity.
      rewrite deleteAll_append. cbn [deleteAll].
      replace (isQuote DQUOTE) with true by reflexivity.
      now rewrite append_empty_r. }
    cbn [append] in E. now rewrite E.
  - intros H. destruct s as [|c s]; [reflexivity |].
    unfold parseCurrency, cleanCurrency. cbn [append truthy negb].
    set (d := deleteAll isQuote (String c s)).
    assert (Hd : occurs "$" d = false) by now apply occurs_deleteAll.
    assert (E1 : deleteAll isQuote (String "R" (String "$" (String " " (String c s))))
                 = String "R" (String "$" (String " " d))) by reflexivity.
    rewrite E1.
    assert (E2 : replaceFirst (String "R" (String "$" (String " " d))) "R$" ""
                 = String " " d).
    { cbn [replaceFirst startsWith]. rewrite !Ascii.eqb_refl.
      now rewrite startsWith_empty. }
    rewrite E2.
    assert (E3 : replaceFirst d "R$" "" = d).
    { apply replaceFirst_absent.
      destruct (includes d "R$") eqn:E; [|reflexivity].
      apply includes_iff in E. destruct E as [a [b E]].
      rewrite E, occurs_append in Hd. simpl in Hd.
      rewrite orb_true_r in Hd. discriminate Hd. }
    rewrite E3. reflexivity.
Qed.

Lemma parseCurrency_ignores_decoration_witness :
  parseCurrency "R$ 15,90" = parseCurrency "15,90".
Proof.
  exact (proj2 (parseCurrency_ignores_decoration "15,90") eq_refl).
Defined.

(** ** The timestamp of a row whose time is numeric *)

Section NumericTime.

Local Open Scope Z_scope.

Lemma digitValue_range (c : ascii) : isDigit c = true -> 0 <= digitValue c <= 9.
Proof.
  unfold isDigit, digitValue. intros H. apply andb_true_iff in H.
  destruct H as [H1 H2]. apply Nat.leb_le in H1, H2. lia.
Qed.

Lemma parseInt_digits (ds : string) :
  all isDigit ds = true -> ds <> "" -> parseInt ds = Some (digitsValue 0 ds).
Proof.
  intros H Hne. destruct ds as [|c r]; [contradiction |].
  assert (Hc : isDigit c = true)
    by (simpl in H; now apply andb_true_iff in H).
  destruct (digit_char_facts c Hc) as [Hw _].
  unfold parseInt. cbn [trimStart]. rewrite Hw, (spanSign_digit c r Hc).
  pose proof (spanDigits_append (String c r) "" H I) as E.
  rewrite append_empty_r in E. now rewrite E.
Qed.

Lemma two_digits_value (a b : ascii) :
  isDigit a = true -> isDigit b = true ->
  parseInt (String a (String b "")) = Some (10 * digitValue a + digitValue b)
  /\ 0 <= 10 * digitValue a + digitValue b <= 99.
Proof.
  intros Ha Hb. split.
  - rewrite parseInt_digits; [|simpl; now rewrite Ha, Hb | discriminate].
    cbn [digitsValue]. f_equal; lia.
  - pose proof (digitValue_range a Ha). pose proof (digitValue_range b Hb). lia.
Qed.

Lemma four_digits_value (a b c d : ascii) :
  isDigit a = true -> isDigit b = true -> isDigit c = true ->
  isDigit d = true ->
  exists y,
    parseInt (String a (String b (String c (String d "")))) = Some y
    /\ 0 <= y <= 9999.
Proof.
  intros Ha Hb Hc Hd. eexists. split.
  - rewrite parseInt_digits; [reflexivity | | discriminate].
    simpl. now rewrite Ha, Hb, Hc, Hd.
  - cbn [digitsValue].
    pose proof (digitValue_range a Ha). pose proof (digitValue_range b Hb).
    pose proof (digitValue_range c Hc). pose proof (digitValue_range d Hd).
    lia.
Qed.

(** A text of the shape the date pattern accepts has three numeric parts:
    two digits, two digits, four digits. *)
Lemma matchesDate_parts (s : string) :
  matchesDate s = true ->
  exists d m y,
    parseIntOpt (nth_error (split "/" s) 0) = Some d
    /\ parseIntOpt (nth_error (split "/" s) 1) = Some m
    /\ parseIntOpt (nth_error (split "/" s) 2) = Some y
    /\ 0 <= d <= 99 /\ 0 <= m <= 99 /\ 0 <= y <= 9999.
Proof.
  intros H.
  destruct s as [|d1 [|d2 [|s1 [|m1 [|m2 [|s2 [|y1 [|y2 [|y3 [|y4 [|x r]]]]]]]]]]];
    try discriminate H.
  cbn [matchesDate] in H.
  do 9 (apply andb_true_iff in H; destruct H as [H ?]).
  repeat match goal with
         | E : Ascii.eqb _ "/" = true |- _ => apply Ascii.eqb_eq in E; subst
         end.
  repeat match goal with
         | E : isDigit ?c = true |- _ =>
             lazymatch goal with
             | _ : Ascii.eqb c "/" = false |- _ => fail
             | _ => let F := fresh "F" in
                    assert (F : Ascii.eqb c "/" = false)
                      by (destruct (digit_char_facts c E)
                            as [_ [_ [_ [_ [_ [_ [F' _]]]]]]]; exact F')
             end
         end.
  cbn [split].
  repeat match goal with
         | F : Ascii.eqb ?c "/" = false |- _ => rewrite F; clear F
         end.
  rewrite !Ascii.eqb_refl. cbn [nth_error parseIntOpt].
  destruct (two_digits_value d1 d2) as [E1 R1]; try assumption.
  destruct (two_digits_value m1 m2) as [E2 R2]; try assumption.
  destruct (four_digits_value y1 y2 y3 y4) as [y [E3 R3]]; try assumption.
  rewrite E1, E2, E3. do 3 eexists. repeat split; try reflexivity; lia.
Qed.

Lemma DayOfMonthStart_range (mn leap : Z) :
  0 <= mn <= 11 -> 0 <= leap <= 1 -> 0 <= DayOfMonthStart mn leap <= 335.
Proof.
  intros Hm Hl.
  destruct (month_cases mn Hm)
    as [-> | [-> | [-> | [-> | [-> | [-> | [-> | [-> | [-> | [-> | [-> | ->
       ]]]]]]]]]]]; cbv [DayOfMonthStart]; lia.
Qed.

(** The Date constructor on a day 0..99, a month 1..99 (1-based), a year
    0..9999 and a time of day: the date may overflow into other months or
    years, the timestamp is valid all the same. *)
Lemma newDate_defined (y m d h mi s : Z) :
  boundedOffsets LocalTZA ->
  0 <= y <= 9999 -> 0 <= m <= 99 -> 0 <= d <= 99 ->
  0 <= h < 24 -> 0 <= mi < 60 -> 0 <= s < 60 ->
  exists t,
    newDate LocalTZA
      (Some y) (Some (m - 1)) (Some d) (Some h) (Some mi) (Some s)
    = Some t.
Proof.
  intros Hz Hy Hm Hd Hh Hmi Hs. unfold newDate.
  set (yr := if (0 <=? y) && (y <=? 99) then 1900 + y else y).
  assert (Hyr : 100 <= yr <= 9999).
  { subst yr. destruct (Z.leb_spec 0 y); destruct (Z.leb_spec y 99);
      cbn [andb]; lia. }
  clearbody yr.
  pose proof (MakeTime_range h mi s Hh Hmi Hs) as Htod.
  set (D := MakeDay yr (m - 1) d).
  assert (HD : -800000 <= D <= 3000000).
  { subst D. unfold MakeDay.
    assert (Hq : -1 <= (m - 1) / 12 <= 8) by (Z.div_mod_to_equations; lia).
    assert (Hr : 0 <= (m - 1) mod 12 <= 11) by (Z.div_mod_to_equations; lia).
    pose proof (DayFromYear_le 99 (yr + (m - 1) / 12)) as Hlo.
    pose proof (DayFromYear_le (yr + (m - 1) / 12) 10007) as Hhi.
    assert (E1 : -700000 <= DayFromYear 99)
      by (vm_compute; intros X; discriminate X).
    assert (E2 : DayFromYear 10007 <= 2950000)
      by (vm_compute; intros X; discriminate X).
    assert (Hl : 0 <= (if DaysInYear (yr + (m - 1) / 12) =? 366 then 1 else 0)
                 <= 1) by (destruct (_ =? 366); lia).
    pose proof (DayOfMonthStart_range _ _ Hr Hl). lia. }
  clearbody D.
  unfold TimeClip, UTC.
  set (t := MakeDate D (MakeTime h mi s 0)).
  pose proof (Hz t false) as Hoff.
  destruct (Z.ltb_spec 8640000000000000 (Z.abs (t - LocalTZA t false)))
    as [Hbig | _].
  - subst t. unfold MakeDate, msPerDay in *. lia.
  - eexists. reflexivity.
Qed.

Lemma buildDate_numeric_time (dateRaw timeRaw : string) (h mi s : Z) :
  boundedOffsets LocalTZA ->
  matchesDate dateRaw = true ->
  parsedTime timeRaw = Some (h, mi, s) ->
  0 <= h < 24 -> 0 <= mi < 60 -> 0 <= s < 60 ->
  exists t, buildDate dateRaw timeRaw = Some t.
Proof.
  intros Hz Hd Ht Hh Hmi Hs.
  destruct (matchesDate_parts dateRaw Hd)
    as [d [m [y [E0 [E1 [E2 [Rd [Rm Ry]]]]]]]].
  unfold buildDate. rewrite E0, E1, E2. cbn [option_map].
  unfold parsedTime in Ht.
  destruct (parseInt (orZero (nth_error _ 0))) as [h'|]; [|discriminate].
  destruct (parseInt (orZero (nth_error _ 1))) as [mi'|]; [|discriminate].
  destruct (parseInt (orZero (nth_error _ 2))) as [s'|]; [|discriminate].
  injection Ht as -> -> ->.
  now apply newDate_defined.
Qed.

End NumericTime.

(** X15: on a host whose zone keeps its offsets within a day, in every
    transaction of a parse whose raw time is numeric, with an hour 0..23, a
    minute 0..59 and a second 0..59 (missing components taken as 0), the
    timestamp is valid, whatever the digits of the date, and [dayOfWeek] is
    the day of the week of that instant in the local time of the host, an
    integer from 0 to 6. *)
Theorem numeric_time_gives_valid_timestamp :
  forall csvText : string,
    exists r,
      parseCSV csvText = Ok r
      /\ forall tx h mi s,
           In tx (transactions r) ->
           parsedTime (rawTime tx) = Some (h, mi, s) ->
           (0 <= h < 24)%Z -> (0 <= mi < 60)%Z -> (0 <= s < 60)%Z ->
           boundedOffsets LocalTZA ->
           exists t d,
             date tx = Some t
             /\ dayOfWeek tx = Some d
             /\ d = WeekDay (LocalTime LocalTZA t)
             /\ (0 <= d <= 6)%Z.
Proof.
  intros csvText. rewrite parseCSV_eq. eexists. split; [reflexivity |].
  intros tx h mi s Hin Ht Hh Hmi Hs Hz.
  pose proof (parseResult_builtFromRow csvText) as H.
  rewrite Forall_forall in H. destruct (H tx Hin) as [Hm [Hd [Hw _]]].
  destruct (buildDate_numeric_time _ _ _ _ _ Hz Hm Ht Hh Hmi Hs) as [t E].
  rewrite <- Hd in E. exists t, (WeekDay (LocalTime LocalTZA t)).
  rewrite Hw, E. unfold getDay, getter.
  repeat split; apply WeekDay_range.
Qed.

(** ** The texts of the metadata *)

Section MetadataTexts.

Lemma cleaned_noQuote (s : string) : noQuote (trim (deleteAll isQuote s)).
Proof. split; apply occurs_trim, occurs_deleteAll_class; reflexivity. Qed.

Lemma firstOperador_noQuote (ls : list string) (u : string) :
  noQuote u -> noQuote (firstOperador ls u).
Proof.
  intros Hu. induction ls as [|l r IH]; simpl; [assumption |].
  unfold lineOperador. destruct (startsWith l "Operador:"); [|assumption].
  destruct (nth_error (splitCsvLine l) 1) as [p|]; [|assumption].
  destruct (truthy p); [apply cleaned_noQuote | assumption].
Qed.

Lemma rowStep_unitName_noQuote (format : CsvFormat.t) (lines : list string)
    (i : nat) (l : string) (st : LoopState) :
  noQuote (st_unitName st) ->
  noQuote (st_unitName (rowStep format lines i l st)).
Proof.
  intros Hu. unfold rowStep.
  destruct (startsWith (trim l) "Total"); [assumption |].
  destruct format; [| |assumption].
  - destruct (_ <? 12); [assumption |].
    rewrite commonProcessing_unitName. cbn [setUnitName st_unitName].
    unfold selfServiceName. destruct (_ && _); [|assumption].
    now apply firstOperador_noQuote.
  - destruct (attendantGate _); [|assumption].
    rewrite commonProcessing_unitName. cbn [setUnitName st_unitName].
    unfold attendantName. destruct (_ && _); [|assumption].
    destruct (_ && _); [apply cleaned_noQuote | assumption].
Qed.

Lemma rowsFrom_unitName_noQuote (format : CsvFormat.t)
    (lines rows : list string) (i : nat) (st : LoopState) :
  noQuote (st_unitName st) ->
  noQuote (st_unitName (rowsFrom format lines i rows st)).
Proof.
  revert i st; induction rows as [|l rows IH]; intros i st H; simpl.
  - assumption.
  - apply IH. now apply rowStep_unitName_noQuote.
Qed.

Lemma firstPeriod_noQuote (ls : list string) : noQuote (firstPeriod ls).
Proof.
  induction ls as [|l r IH]; simpl; [split; reflexivity |].
  unfold linePeriod. destruct (includes l "Vendas de"); [|assumption].
  destruct (find _ _) as [part|]; [|assumption].
  destruct (truthy part); [apply cleaned_noQuote | assumption].
Qed.

End MetadataTexts.

(** X16: the unit name and the period of the metadata never hold a quote
    character, single or double, whatever the text parsed. *)
Theorem metadata_texts_hold_no_quote :
  forall csvText : string,
    exists r,
      parseCSV csvText = Ok r
      /\ noQuote (unitName (metadata r))
      /\ noQuote (period (metadata r)).
Proof.
  intros csvText. rewrite parseCSV_eq. eexists. split; [reflexivity |].
  unfold parseResult. cbn [metadata unitName period]. split.
  - apply rowsFrom_unitName_noQuote. split; reflexivity.
  - apply firstPeriod_noQuote.
Qed.

End HostTimeZone.

(** * The properties on a host

    The section is closed: the zone of the host is now an argument.  The
    instances below are taken in the zone [brasilia], three hours behind
    UTC the year round, and, for the skipped hour, in
    [saoPauloSpring2018]. *)

(** The end-to-end scenarios of the specification, evaluated. *)
Example scenario_self_service :
  exists r tx,
    parseCSV brasilia scenarioSelfService = Ok r
    /\ transactions r = [tx]
    /\ machine tx = "Lavadora 3"
    /\ type tx = CycleType.WASH
    /\ amount tx = Num (Qmake 51 2)
    /\ paymentMethod tx = "Dinheiro"
    /\ unitName (metadata r) = "Lavanderia Centro"
    /\ reportType (metadata r) = "SELF_SERVICE".
Proof. eexists. eexists. split; [vm_compute; reflexivity |]. repeat split. Qed.

Example scenario_attendant :
  exists r tx,
    parseCSV brasilia scenarioAttendant = Ok r
    /\ transactions r = [tx]
    /\ machine tx = "Secadora 1"
    /\ type tx = CycleType.DRY
    /\ amount tx = Num (Qmake 12 1)
    /\ paymentMethod tx = "Cartao"
    /\ unitName (metadata r) = "Cliente X"
    /\ reportType (metadata r) = "ATTENDANT".
Proof. eexists. eexists. split; [vm_compute; reflexivity |]. repeat split. Qed.

Lemma reportType_follows_format_witness :
  exists r,
    parseCSV brasilia sampleUnknown = Ok r
    /\ reportType (metadata r) = "SELF_SERVICE".
Proof.
  destruct (reportType_follows_format brasilia sampleUnknown)
    as [r [format [Hr [Hf [_ [_ H]]]]]].
  exists r. split; [exact Hr |].
  apply H. vm_compute in Hf. now injection Hf as <-.
Defined.

Lemma unknown_format_empty_result_witness :
  exists r,
    parseCSV brasilia sampleUnknown = Ok r
    /\ transactions r = []
    /\ unitName (metadata r) = defaultUnitName
    /\ period (metadata r) = defaultPeriod.
Proof.
  destruct (unknown_format_empty_result brasilia sampleUnknown eq_refl)
    as [r [Hr [Ht [Hu Hp]]]].
  exists r. repeat split; try assumption.
  apply Hp. intros l Hl. vm_compute in Hl.
  destruct Hl as [<- | [<- | [<- | []]]]; reflexivity.
Defined.

(** C10 at work: the first transaction of a report, whose two fields are the
    machine column of its row. *)
Lemma productName_equals_machine_witness :
  exists r tx,
    parseCSV brasilia sampleAttendant = Ok r
    /\ hd_error (transactions r) = Some tx
    /\ productName tx = machine tx
    /\ machine tx = "Lavadora 1".
Proof.
  destruct (productName_equals_machine brasilia sampleAttendant) as [r [Hr H]].
  assert (Hr' := Hr). vm_compute in Hr'. injection Hr' as Hr'.
  destruct (transactions r) as [|tx txs] eqn:E.
  - rewrite <- Hr' in E. discriminate E.
  - exists r, tx. split; [exact Hr |]. split; [now rewrite E |].
    split; [apply H; now left |].
    rewrite <- Hr' in E. injection E as <- _. reflexivity.
Defined.

Lemma attendant_unitName_first_settled_witness :
  exists r,
    parseCSV brasilia sampleAttendant = Ok r
    /\ unitName (metadata r) = "Lavanderia Sul".
Proof.
  destruct (attendant_unitName_first_settled brasilia sampleAttendant eq_refl)
    as [r [Hr Hu]].
  exists r. split; [exact Hr |]. rewrite Hu. reflexivity.
Defined.

(** C7 as stated fails: the first valid data row supplies the value
    "Unidade Desconhecida", which is neither empty nor "cliente"; the claim
    has it kept, and the next row overwrites it. *)
Lemma attendant_unitName_overwritten :
  detectFormat (cleanLines samplePlaceholderName) = Ok CsvFormat.ATTENDANT
  /\ option_map column0
       (hd_error (filter isValidAttendantRow
                    (dataRows (cleanLines samplePlaceholderName))))
     = Some "Unidade Desconhecida"
  /\ acceptableName "Unidade Desconhecida" = true
  /\ firstAcceptableName (dataRows (cleanLines samplePlaceholderName))
     = "Unidade Desconhecida"
  /\ exists r,
       parseCSV brasilia samplePlaceholderName = Ok r
       /\ unitName (metadata r) = "Lavanderia Sul"
       /\ unitName (metadata r)
          <> firstAcceptableName (dataRows (cleanLines samplePlaceholderName)).
Proof.
  split; [reflexivity |]. split; [reflexivity |]. split; [reflexivity |].
  split; [reflexivity |].
  eexists. split; [vm_compute; reflexivity |].
  split; [reflexivity | discriminate].
Qed.

Lemma junk_lines_do_not_change_parse_witness :
  cleanLines ("Exportado em 02/11" ++ String LF ""
              ++ linesText [""; ",,,,,,"; "  , ,  "] ++ sampleAttendant)
  = cleanLines ("Exportado em 02/11" ++ String LF "" ++ sampleAttendant)
  /\ detectFormat
       (cleanLines ("Exportado em 02/11" ++ String LF ""
                    ++ linesText [""; ",,,,,,"; "  , ,  "] ++ sampleAttendant))
     = Ok CsvFormat.ATTENDANT.
Proof.
  destruct (junk_lines_do_not_change_parse brasilia
              ("Exportado em 02/11" ++ String LF "") sampleAttendant
              [""; ",,,,,,"; "  , ,  "]) as [_ [H1 [H2 _]]].
  - right. now exists "Exportado em 02/11".
  - repeat constructor.
  - split; [exact H1 |]. exact (eq_trans H2 eq_refl).
Defined.

Lemma timestamp_round_trip_on_calendar_dates_witness :
  exists r tx,
    parseCSV brasilia sampleAttendant = Ok r
    /\ hd_error (transactions r) = Some tx
    /\ rawDate tx = "01/03/2024"
    /\ rawTime tx = "10:00:00"
    /\ timestampFields brasilia (date tx) = Some firstOfMarch.
Proof.
  destruct (timestamp_round_trip_on_calendar_dates brasilia sampleAttendant)
    as [r [Hr H]].
  assert (Hr' := Hr). vm_compute in Hr'. injection Hr' as Hr'.
  destruct (transactions r) as [|tx txs] eqn:E.
  - rewrite <- Hr' in E. discriminate E.
  - exists r, tx. split; [exact Hr |]. split; [now rewrite E |].
    assert (Etx : rawDate tx = "01/03/2024" /\ rawTime tx = "10:00:00").
    { rewrite <- Hr' in E. injection E as <- _. split; reflexivity. }
    destruct Etx as [Ed Et]. split; [exact Ed |]. split; [exact Et |].
    apply H.
    + now left.
    + rewrite Ed, Et. reflexivity.
    + unfold validCalendar, firstOfMarch. cbn. lia.
    + intros t isUTC. vm_compute. discriminate.
    + reflexivity.
Defined.

(** C5 as stated fails: the row dated 31/02/2024 is accepted, and the Date
    constructor carries the overflow of the day into the next month, so the
    timestamp reads 2 March, in a zone that never changes its offset. *)
Lemma timestamp_drifts_on_day_overflow :
  exists r tx,
    parseCSV brasilia sampleDayOverflow = Ok r
    /\ transactions r = [tx]
    /\ rawDate tx = "31/02/2024"
    /\ rawTime tx = "11:30:00"
    /\ parsedFields (rawDate tx) (rawTime tx)
       = Some {| cf_day := 31; cf_month := 2; cf_year := 2024;
                 cf_hour := 11; cf_minute := 30; cf_second := 0 |}
    /\ timestampFields brasilia (date tx)
       = Some {| cf_day := 2; cf_month := 3; cf_year := 2024;
                 cf_hour := 11; cf_minute := 30; cf_second := 0 |}
    /\ ~ roundTrips brasilia tx.
Proof.
  eexists. eexists. split; [vm_compute; reflexivity |].
  split; [reflexivity |].
  split; [reflexivity |]. split; [reflexivity |]. split; [reflexivity |].
  split; [reflexivity |].
  intros [f [Hp Ht]]. vm_compute in Hp, Ht. congruence.
Qed.

(** C5 fails as well on a date of the calendar, where the zone of the host
    skips the local time: in [saoPauloSpring2018] the clocks go from
    midnight of 4 November 2018 to 01:00, the row timed 00:30:00 of that day
    is given the instant 03:30 UTC, and the timestamp reads 01:30:00. *)
Lemma timestamp_drifts_in_skipped_hour :
  exists r tx f,
    parseCSV saoPauloSpring2018 sampleSkippedHour = Ok r
    /\ transactions r = [tx]
    /\ rawDate tx = "04/11/2018"
    /\ rawTime tx = "00:30:00"
    /\ parsedFields (rawDate tx) (rawTime tx) = Some f
    /\ f = {| cf_day := 4; cf_month := 11; cf_year := 2018;
              cf_hour := 0; cf_minute := 30; cf_second := 0 |}
    /\ validCalendar f
    /\ ~ notSkipped saoPauloSpring2018 (localTimeValue f)
    /\ timestampFields saoPauloSpring2018 (date tx)
       = Some {| cf_day := 4; cf_month := 11; cf_year := 2018;
                 cf_hour := 1; cf_minute := 30; cf_second := 0 |}
    /\ ~ roundTrips saoPauloSpring2018 tx.
Proof.
  eexists. eexists. eexists. split; [vm_compute; reflexivity |].
  split; [reflexivity |].
  split; [reflexivity |]. split; [reflexivity |]. split; [reflexivity |].
  split; [reflexivity |].
  split.
  { vm_compute. repeat split; try reflexivity; intros X; discriminate X. }
  split; [intros H; vm_compute in H; discriminate H |].
  split; [reflexivity |].
  intros [f [Hp Ht]]. vm_compute in Hp, Ht. congruence.
Qed.

Lemma crlf_and_lf_give_the_same_parse_witness :
  parseCSV brasilia (toCRLF sampleAttendant) = parseCSV brasilia sampleAttendant.
Proof.
  exact (proj2 (crlf_and_lf_give_the_same_parse brasilia sampleAttendant
                  eq_refl)).
Defined.

Lemma at_most_one_transaction_per_data_row_witness :
  exists r,
    parseCSV brasilia sampleAttendant = Ok r
    /\ List.length (transactions r) < 7 - 1.
Proof.
  destruct (at_most_one_transaction_per_data_row brasilia sampleAttendant)
    as [r [Hr [_ H]]].
  exists r. split; [exact Hr |]. exact (H 1 eq_refl).
Defined.

Lemma transactions_have_clean_fields_witness :
  exists r tx,
    parseCSV brasilia scenarioAttendant = Ok r
    /\ hd_error (transactions r) = Some tx
    /\ machine tx = "Secadora 1"
    /\ noQuote (machine tx)
    /\ amount tx <> NaN.
Proof.
  destruct (transactions_have_clean_fields brasilia scenarioAttendant)
    as [r [Hr H]].
  assert (Hr' := Hr). vm_compute in Hr'. injection Hr' as Hr'.
  destruct (transactions r) as [|tx txs] eqn:E.
  - rewrite <- Hr' in E. discriminate E.
  - exists r, tx. split; [exact Hr |]. split; [now rewrite E |].
    split; [rewrite <- Hr' in E; injection E as <- _; reflexivity |].
    destruct (H tx (or_introl eq_refl)) as [k [_ [_ Hc]]].
    split; apply Hc.
Defined.

Lemma selfService_unitName_from_operador_line_witness :
  exists r,
    parseCSV brasilia scenarioSelfService = Ok r
    /\ unitName (metadata r) = "Lavanderia Centro".
Proof.
  destruct (selfService_unitName_from_operador_line brasilia
              scenarioSelfService eq_refl) as [r [Hr Hu]].
  exists r. split; [exact Hr |]. rewrite Hu. reflexivity.
Defined.

Lemma numeric_time_gives_valid_timestamp_witness :
  exists r tx d,
    parseCSV saoPauloSpring2018 sampleSkippedHour = Ok r
    /\ hd_error (transactions r) = Some tx
    /\ rawTime tx = "00:30:00"
    /\ date tx <> None
    /\ dayOfWeek tx = Some d
    /\ (0 <= d <= 6)%Z.
Proof.
  destruct (numeric_time_gives_valid_timestamp saoPauloSpring2018
              sampleSkippedHour) as [r [Hr H]].
  assert (Hr' := Hr). vm_compute in Hr'. injection Hr' as Hr'.
  destruct (transactions r) as [|tx txs] eqn:E.
  - rewrite <- Hr' in E. discriminate E.
  - assert (Et : rawTime tx = "00:30:00").
    { rewrite <- Hr' in E. injection E as <- _. reflexivity. }
    destruct (H tx 0%Z 30%Z 0%Z) as [t [d [Hd [Hw [_ Hrange]]]]].
    + now left.
    + rewrite Et. reflexivity.
    + lia.
    + lia.
    + lia.
    + intros u isUTC. unfold saoPauloSpring2018.
      destruct (u <? _)%Z; vm_compute; discriminate.
    + exists r, tx, d. split; [exact Hr |]. split; [now rewrite E |].
      split; [exact Et |]. split; [rewrite Hd; discriminate |].
      split; [exact Hw | exact Hrange].
Defined.
